(** * Workflow example tester ([examples/test_workflows.py])

    A shallow embedding of the test harness that drives every example
    workflow through create / execute / delete against the daemon's HTTP
    API, and the properties of its verdicts, its cleanup and its exit
    code.

    The Python interpreter and its standard library ([urllib], [json],
    [pathlib], [str]) are the environment of the program: the network and
    the remote service are an arbitrary state machine [service], the
    fixtures directory is an arbitrary [FileSystem], and the renderings of
    non-string values are functions of a [Runtime]. Everything the script
    itself does is written out: each function of the script is a
    definition of the same name in a state, trace and exception monad. *)

From Stdlib Require Import List String Ascii ZArith Bool Lia Arith.
From Stdlib Require Import Floats.SpecFloat.
From Stdlib Require Import Sorting.Sorted Sorting.Permutation.
Import ListNotations.
Set Warnings "-register-all".
Local Open Scope string_scope.

(** ** Values produced by [json.load] / [json.loads] *)

(** A Python value decoded from JSON. A [dict] keeps its items in insertion
    order; [json] builds dicts with pairwise distinct keys. *)
Inductive pyval : Type :=
| PNone
| PBool (b : bool)
| PInt (z : Z)
| PFloat (f : spec_float)
| PStr (s : string)
| PList (l : list pyval)
| PDict (items : list (string * pyval)).

(** [type(v).__name__], as it appears in the interpreter's error texts. *)
Definition type_name (v : pyval) : string :=
  match v with
  | PNone => "NoneType"
  | PBool _ => "bool"
  | PInt _ => "int"
  | PFloat _ => "float"
  | PStr _ => "str"
  | PList _ => "list"
  | PDict _ => "dict"
  end.

(** Truth value of [v] in [if v:]. *)
Definition truthy (v : pyval) : bool :=
  match v with
  | PNone => false
  | PBool b => b
  | PInt z => negb (z =? 0)%Z
  | PFloat (S754_zero _) => false
  | PFloat _ => true
  | PStr s => negb (s =? "")
  | PList l => match l with [] => false | _ => true end
  | PDict items => match items with [] => false | _ => true end
  end.

(** [v == s] for a string literal [s]. *)
Definition eq_str (v : pyval) (s : string) : bool :=
  match v with
  | PStr t => (t =? s)
  | _ => false
  end.

(** Item lookup in a dict's items. *)
Fixpoint lookup (k : string) (items : list (string * pyval)) : option pyval :=
  match items with
  | [] => None
  | (k', v) :: rest => if (k' =? k) then Some v else lookup k rest
  end.

(** [d.get(k, default)] on the items of a dict. *)
Definition dict_get (k : string) (default : pyval)
           (items : list (string * pyval)) : pyval :=
  match lookup k items with
  | Some x => x
  | None => default
  end.

(** ** Exceptions *)

(** The classes that the handlers of the script tell apart:
    [except (URLError, HTTPError)] in [check_daemon], [except Exception]
    and the bare [except] elsewhere. [HTTPError] is a subclass of
    [URLError]. Asynchronous interrupts are outside the model. *)
Inductive exn_class : Type :=
| URLError
| HTTPError
| TimeoutError
| ValueError
| AttributeError
| TypeError
| KeyError
| OSError
| OtherException.

Record exn : Type := mkExn { exn_cls : exn_class; exn_text : string }.

Definition is_url_error (e : exn) : bool :=
  match exn_cls e with
  | URLError | HTTPError => true
  | _ => false
  end.

(** Every modelled class derives from [Exception]. *)
Definition is_exception (e : exn) : bool := true.

Inductive res (A : Type) : Type :=
| Ok (a : A)
| Raise (e : exn).
Arguments Ok {A} a.
Arguments Raise {A} e.

(** ** Requests, responses and the observable trace *)

Inductive http_method : Type := GET | POST | DELETE.

(** A [urllib.request.Request] handed to [urlopen] with its timeout in
    seconds; [req_data] is the value serialised by [json.dumps] into the
    body, when there is one. *)
Record Request : Type := mkRequest {
  req_method : http_method;
  req_url : string;
  req_data : option pyval;
  req_json_header : bool;
  req_timeout : Z
}.

(** What [urlopen] hands back: the status and the outcome of
    [json.loads(response.read().decode('utf-8'))] on the body. *)
Record Response : Type := mkResponse {
  status : Z;
  body_json : res pyval
}.

Inductive Event : Type :=
| Http (r : Request)
| Print (line : string)
| PrintExc (e : exn)
| Sleep (ms : Z).

Definition Trace : Type := list Event.

Fixpoint requests (t : Trace) : list Request :=
  match t with
  | [] => []
  | Http r :: t' => r :: requests t'
  | _ :: t' => requests t'
  end.

(** ** The environment *)

(** The fixtures directory [examples/workflows] as the script sees it:
    the names of its entries, what [json.load] yields for an entry, and
    whether [examples/sample-data] exists. *)
Record FileSystem : Type := mkFS {
  listdir : list string;
  read_json : string -> res pyval;
  sample_data_exists : bool
}.

(** Renderings done by the interpreter: [str(v)] for a value that is not a
    [str], and [json.dumps(v, indent=2)]. *)
Record Runtime : Type := mkRuntime {
  str_other : pyval -> string;
  json_dumps_indent2 : pyval -> string
}.

(** ** Configuration *)

Definition API_BASE : string := "http://127.0.0.1:8080/workflow-ui".
Definition WORKFLOWS_DIR : string := "examples/workflows".
Definition SAMPLE_DATA_DIR : string := "examples/sample-data".

Definition ESC : string := String (ascii_of_nat 27) "".

Module Colors.
Definition GREEN : string := ESC ++ "[0;32m".
Definition RED : string := ESC ++ "[0;31m".
Definition YELLOW : string := ESC ++ "[1;33m".
Definition BLUE : string := ESC ++ "[0;34m".
Definition BOLD : string := ESC ++ "[1m".
Definition NC : string := ESC ++ "[0m".
End Colors.

(** ** String helpers of the interpreter used by the script *)

(** ["c" * n] *)
Fixpoint str_mul (c : string) (n : nat) : string :=
  match n with
  | O => ""
  | S n' => c ++ str_mul c n'
  end.

(** [s[:n]] *)
Definition str_take (n : nat) (s : string) : string := substring 0 n s.

(** [name.rfind('.')] *)
Fixpoint rfind_dot (s : string) : option nat :=
  match s with
  | EmptyString => None
  | String a s' =>
      match rfind_dot s' with
      | Some i => Some (S i)
      | None => if Ascii.eqb a "."%char then Some 0 else None
      end
  end.

(** [PurePath.stem]: the name without its last suffix. *)
Definition stem (name : string) : string :=
  match rfind_dot name with
  | Some i =>
      if ((0 <? i) && (i <? String.length name - 1))%nat
      then str_take i name else name
  | None => name
  end.

(** Whether [name] matches the pattern [*.json]. *)
Definition glob_json (name : string) : bool :=
  let n := String.length name in
  (5 <=? n)%nat && (substring (n - 5) 5 name =? ".json").

(** [sorted]: a stable sort by name. *)
Fixpoint insert_sorted (x : string) (l : list string) : list string :=
  match l with
  | [] => [x]
  | y :: l' => if String.leb x y then x :: l else y :: insert_sorted x l'
  end.

Fixpoint sorted (l : list string) : list string :=
  match l with
  | [] => []
  | x :: l' => insert_sorted x (sorted l')
  end.

(** ** A scripted service and a one-fixture directory

    The concrete environment of the worked scenarios: a service that
    answers each kind of request from a fixed script and counts the
    requests it has served. *)

Module Sample.

Record Script : Type := mkScript {
  on_health : res Response;
  on_create : res Response;
  on_execute : res Response;
  on_delete : res Response
}.

Definition service (sc : Script) (req : Request) (served : nat)
  : res Response * nat :=
  (match req_method req, req_data req with
   | GET, _ => on_health sc
   | POST, Some _ => on_create sc
   | POST, None => on_execute sc
   | DELETE, _ => on_delete sc
   end, S served).

Definition ok_json (code : Z) (body : pyval) : res Response :=
  Ok (mkResponse code (Ok body)).

Definition created : res Response :=
  ok_json 201 (PDict [("id", PStr "w-123")]).

Definition completed : pyval :=
  PDict [("status", PStr "completed"); ("steps_executed", PInt 1);
         ("execution_time_ms", PInt 42)].

(** The daemon of the spec's first scenario. *)
Definition healthy : Script :=
  mkScript (ok_json 200 (PList [])) created (ok_json 200 completed)
           (ok_json 200 (PDict [])).

Definition executing (body : pyval) : Script :=
  mkScript (ok_json 200 (PList [])) created (ok_json 200 body)
           (ok_json 200 (PDict [])).

(** A result that reports success and carries a list where the output
    mapping should be. *)
Definition completed_with_list : pyval :=
  PDict [("status", PStr "completed"); ("output", PList [PInt 1])].

Definition refused : exn :=
  mkExn URLError "<urlopen error [Errno 111] Connection refused>".

Definition server_error : exn :=
  mkExn HTTPError "HTTP Error 500: Internal Server Error".

(** A daemon that is down. *)
Definition down : Script :=
  mkScript (Raise refused) (Raise refused) (Raise refused) (Raise refused).

(** A daemon whose create endpoint answers 500. *)
Definition rejecting : Script :=
  mkScript (ok_json 200 (PList [])) (Raise server_error)
           (ok_json 200 completed) (ok_json 200 (PDict [])).

Definition demo : pyval :=
  PDict [("name", PStr "demo");
         ("nodes", PList [PDict [("id", PStr "n1")]]);
         ("connections", PList [])].

Definition syntax_error : exn :=
  mkExn ValueError "Expecting value: line 1 column 1 (char 0)".

Definition read (name : string) : res pyval :=
  if (name =? "broken.json") then Raise syntax_error else Ok demo.

Definition one_fixture : FileSystem := mkFS ["demo.json"] read true.

Definition three_fixtures : FileSystem :=
  mkFS ["c.json"; "broken.json"; "a.json"; "notes.txt"] read true.

Definition no_fixtures : FileSystem := mkFS ["README.md"] read true.

Definition digit (n : nat) : string :=
  String (ascii_of_nat (48 + n)) "".

Fixpoint decimal (fuel n : nat) : string :=
  match fuel with
  | O => ""
  | S fuel' =>
      if (n <? 10)%nat then digit n
      else decimal fuel' (n / 10) ++ digit (n mod 10)
  end.

(** [str] of [None], booleans and integers as Python prints them; other
    values are abbreviated. *)
Definition show (v : pyval) : string :=
  match v with
  | PNone => "None"
  | PBool true => "True"
  | PBool false => "False"
  | PInt z =>
      (if (z <? 0)%Z then "-" else "")
        ++ decimal (S (Z.abs_nat z)) (Z.abs_nat z)
  | PFloat _ => "<float>"
  | PStr s => s
  | PList _ => "[...]"
  | PDict _ => "{...}"
  end.

Definition runtime : Runtime := mkRuntime show show.

(** A directory whose only fixture is the JSON array [[]]. *)
Definition array_fixture : FileSystem :=
  mkFS ["list.json"] (fun _ => Ok (PList [])) true.

(** A daemon that completes every workflow and refuses to delete it. *)
Definition keeping : Script :=
  mkScript (ok_json 200 (PList [])) created (ok_json 200 completed)
           (Raise server_error).


End Sample.

(** ** The monad of the script: service state, trace and exceptions *)

Section Harness.

(** The network and the remote service behind it: any state machine
    that answers a request with a response or has [urlopen] raise. *)
Variable St : Type.
Variable service : Request -> St -> res Response * St.
Variable fs : FileSystem.
Variable rt : Runtime.

Definition M (A : Type) : Type := St -> res A * St * Trace.

Definition ret {A} (a : A) : M A := fun st => (Ok a, st, []).

Definition raise {A} (e : exn) : M A := fun st => (Raise e, st, []).

Definition bind {A B} (m : M A) (f : A -> M B) : M B :=
  fun st =>
    match m st with
    | (Ok a, st1, t1) =>
        match f a st1 with
        | (r, st2, t2) => (r, st2, (t1 ++ t2)%list)
        end
    | (Raise e, st1, t1) => (Raise e, st1, t1)
    end.

(** [try: m  except <classes>: h] *)
Definition try_except {A} (m : M A) (catches : exn -> bool)
           (h : exn -> M A) : M A :=
  fun st =>
    match m st with
    | (Ok a, st1, t1) => (Ok a, st1, t1)
    | (Raise e, st1, t1) =>
        if catches e then
          match h e st1 with
          | (r, st2, t2) => (r, st2, (t1 ++ t2)%list)
          end
        else (Raise e, st1, t1)
    end.

Definition emit (ev : Event) : M unit := fun st => (Ok tt, st, [ev]).

Definition lift {A} (r : res A) : M A := fun st => (r, st, []).

Notation "x <- m ;; k" := (bind m (fun x => k))
  (at level 61, m at next level, right associativity).
Notation "m ;; k" := (bind m (fun _ => k))
  (at level 61, right associativity).

(** *** Interpreter primitives *)

Definition print (line : string) : M unit := emit (Print line).

Definition sleep_ms (ms : Z) : M unit := emit (Sleep ms).

(** [urllib.request.urlopen(req, timeout=...)] *)
Definition urlopen (req : Request) : M Response :=
  fun st =>
    match service req st with
    | (r, st') => (r, st', [Http req])
    end.

(** [str(v)], the conversion done by an f-string field. *)
Definition str (v : pyval) : string :=
  match v with
  | PStr s => s
  | _ => str_other rt v
  end.

Definition str_int (z : Z) : string := str (PInt z).

Definition no_attribute (v : pyval) (attr : string) : exn :=
  mkExn AttributeError
        ("'" ++ type_name v ++ "' object has no attribute '" ++ attr ++ "'").

(** [v.get(k, d)] *)
Definition py_get (v : pyval) (k : string) (d : pyval) : res pyval :=
  match v with
  | PDict items => Ok (dict_get k d items)
  | _ => Raise (no_attribute v "get")
  end.

(** [len(v)] *)
Definition py_len (v : pyval) : res nat :=
  match v with
  | PStr s => Ok (String.length s)
  | PList l => Ok (List.length l)
  | PDict items => Ok (List.length items)
  | _ => Raise (mkExn TypeError
                      ("object of type '" ++ type_name v ++ "' has no len()"))
  end.

(** [list(v.keys())] *)
Definition py_keys (v : pyval) : res (list string) :=
  match v with
  | PDict items => Ok (map fst items)
  | _ => Raise (no_attribute v "keys")
  end.

(** [v[key]] for a string key. *)
Definition py_getitem (v : pyval) (key : string) : res pyval :=
  match v with
  | PDict items =>
      match lookup key items with
      | Some x => Ok x
      | None => Raise (mkExn KeyError key)
      end
  | _ => Raise (mkExn TypeError
                      ("'" ++ type_name v ++ "' object is not subscriptable"))
  end.

(** *** Output helpers *)

Definition info_line (msg : string) : string :=
  Colors.BLUE ++ "[INFO]" ++ Colors.NC ++ " " ++ msg.

Definition success_line (msg : string) : string :=
  Colors.GREEN ++ "[SUCCESS]" ++ Colors.NC ++ " " ++ msg.

Definition error_line (msg : string) : string :=
  Colors.RED ++ "[ERROR]" ++ Colors.NC ++ " " ++ msg.

Definition warning_line (msg : string) : string :=
  Colors.YELLOW ++ "[WARNING]" ++ Colors.NC ++ " " ++ msg.

Definition print_status (msg : string) : M unit := print (info_line msg).

Definition print_success (msg : string) : M unit :=
  print (success_line msg).

Definition print_error (msg : string) : M unit := print (error_line msg).

Definition print_warning (msg : string) : M unit :=
  print (warning_line msg).

(** *** Health probe *)

Definition health_request : Request :=
  mkRequest GET (API_BASE ++ "/nodes") None false 5.

(** The [try] block yields [Some true] where the source returns from
    inside it and [None] where control falls out of it. *)
Definition check_daemon : M bool :=
  print_status "Checking if daemon is running..." ;;
  early <- try_except
    (response <- urlopen health_request ;;
     if (status response =? 200)%Z
     then print_success "Daemon is running" ;; ret (Some true)
     else ret None)
    is_url_error
    (fun _ => ret None) ;;
  match early with
  | Some b => ret b
  | None =>
      print_error "Daemon is not running" ;;
      print_error
        "Please start it with: cargo run --bin agency-daemon --release" ;;
      ret false
  end.

(** *** Workflow loader *)

Definition load_workflow (filepath : string) : M pyval :=
  lift (read_json fs filepath).

(** *** Lifecycle client *)

Definition create_request (create_data : pyval) : Request :=
  mkRequest POST (API_BASE ++ "/workflows") (Some create_data) true 10.

Definition execute_request (workflow_id : pyval) : Request :=
  mkRequest POST (API_BASE ++ "/workflows/" ++ str workflow_id ++ "/execute")
            None false 60.

Definition delete_request (workflow_id : pyval) : Request :=
  mkRequest DELETE (API_BASE ++ "/workflows/" ++ str workflow_id)
            None false 5.

(** The [create_data] dict of [create_workflow], lines 66-71. *)
Definition build_create_data (workflow_data : pyval) : M pyval :=
  name <- lift (py_get workflow_data "name" (PStr "Test Workflow")) ;;
  description <- lift (py_get workflow_data "description" (PStr "")) ;;
  nodes <- lift (py_get workflow_data "nodes" (PList [])) ;;
  connections <- lift (py_get workflow_data "connections" (PList [])) ;;
  ret (PDict [("name", name); ("description", description);
              ("nodes", nodes); ("connections", connections)]).

Definition create_workflow (workflow_data : pyval) : M (bool * pyval) :=
  try_except
    (create_data <- build_create_data workflow_data ;;
     response <- urlopen (create_request create_data) ;;
     if ((status response =? 200) || (status response =? 201))%Z
     then
       result <- lift (body_json response) ;;
       workflow_id <- lift (py_get result "id" PNone) ;;
       if truthy workflow_id
       then ret (true, workflow_id)
       else print_error "No workflow ID in response" ;;
            ret (false, PStr "")
     else
       print_error ("Failed to create workflow: "
                      ++ str_int (status response)) ;;
       ret (false, PStr ""))
    is_exception
    (fun e =>
       print_error ("Exception creating workflow: " ++ exn_text e) ;;
       ret (false, PStr "")).

Definition execute_workflow (workflow_id : pyval) : M (bool * pyval) :=
  try_except
    (response <- urlopen (execute_request workflow_id) ;;
     if (status response =? 200)%Z
     then
       result <- lift (body_json response) ;;
       ret (true, result)
     else
       print_error ("Execution failed: " ++ str_int (status response)) ;;
       ret (false, PDict []))
    is_exception
    (fun e =>
       print_error ("Exception executing workflow: " ++ exn_text e) ;;
       ret (false, PDict [])).

Definition delete_workflow (workflow_id : pyval) : M unit :=
  try_except
    (_ <- urlopen (delete_request workflow_id) ;; ret tt)
    (fun _ => true)
    (fun _ => ret tt).

(** *** Test runner *)

(** [for x in xs: body] *)
Fixpoint for_each {A} (xs : list A) (body : A -> M unit) : M unit :=
  match xs with
  | [] => ret tt
  | x :: xs' => body x ;; for_each xs' body
  end.

(** The output summary printed on the completed branch of
    [test_workflow], lines 166-174 of the script. *)
Definition print_output_summary (result : pyval) : M unit :=
  output <- lift (py_get result "output" (PDict [])) ;;
  if truthy output
  then
    n <- lift (py_len output) ;;
    print ("  Output nodes: " ++ str_int (Z.of_nat n)) ;;
    keys <- lift (py_keys output) ;;
    for_each (firstn 3 keys)
      (fun key =>
         value <- lift (py_getitem output key) ;;
         let val_str := str value in
         let val_str :=
           if (100 <? String.length val_str)%nat
           then str_take 100 val_str ++ "..." else val_str in
         print ("    - " ++ key ++ ": " ++ val_str))
  else ret tt.

Definition LF : string := String (ascii_of_nat 10) "".

(** [filepath] is the entry's name inside the fixtures directory; the stem
    of the full path is the stem of that name. *)
Definition test_workflow (filepath : string) : M bool :=
  let workflow_name := stem filepath in
  print (LF ++ str_mul "=" 50) ;;
  print_status ("Testing: " ++ workflow_name) ;;
  print (str_mul "=" 50) ;;
  try_except
    (workflow_data <- load_workflow filepath ;;
     print_status ("Creating workflow: " ++ workflow_name) ;;
     created <- create_workflow workflow_data ;;
     let workflow_id := snd created in
     if negb (fst created)
     then
       print_error ("Failed to create workflow: " ++ workflow_name) ;;
       ret false
     else
       print_success ("Created workflow with ID: " ++ str workflow_id) ;;
       sleep_ms 500 ;;
       print_status ("Executing workflow: " ++ workflow_name) ;;
       executed <- execute_workflow workflow_id ;;
       let result := snd executed in
       if fst executed
       then
         wf_status <- lift (py_get result "status" (PStr "unknown")) ;;
         if eq_str wf_status "completed"
         then
           print_success "Workflow executed successfully" ;;
           steps <- lift (py_get result "steps_executed" (PInt 0)) ;;
           print ("  Steps executed: " ++ str steps) ;;
           time_ms <- lift (py_get result "execution_time_ms" (PInt 0)) ;;
           print ("  Execution time: " ++ str time_ms ++ "ms") ;;
           print_output_summary result ;;
           delete_workflow workflow_id ;;
           ret true
         else
           print_error ("Workflow completed with status: " ++ str wf_status) ;;
           print ("  Result: " ++ str_take 500 (json_dumps_indent2 rt result)) ;;
           delete_workflow workflow_id ;;
           ret false
       else
         print_error "Workflow execution failed" ;;
         delete_workflow workflow_id ;;
         ret false)
    is_exception
    (fun e =>
       print_error ("Test failed with exception: " ++ exn_text e) ;;
       emit (PrintExc e) ;;
       ret false).

Record Counters : Type := mkCounters {
  total : nat;
  passed : nat;
  failed : nat
}.

(** The [for workflow_file in workflow_files] loop of [main]. *)
Fixpoint test_loop (workflow_files : list string) (c : Counters)
  : M Counters :=
  match workflow_files with
  | [] => ret c
  | workflow_file :: rest =>
      let c1 := mkCounters (total c + 1) (passed c) (failed c) in
      ok <- test_workflow workflow_file ;;
      let c2 :=
        if ok
        then mkCounters (total c1) (passed c1 + 1) (failed c1)
        else mkCounters (total c1) (passed c1) (failed c1 + 1) in
      sleep_ms 1000 ;;
      test_loop rest c2
  end.

Definition workflow_files : list string :=
  sorted (filter glob_json (listdir fs)).

Definition print_summary (c : Counters) : M unit :=
  print (LF ++ str_mul "=" 50) ;;
  print (Colors.BOLD ++ "Test Summary" ++ Colors.NC) ;;
  print (str_mul "=" 50) ;;
  print ("Total workflows: " ++ str_int (Z.of_nat (total c))) ;;
  print_success ("Passed: " ++ str_int (Z.of_nat (passed c))) ;;
  (if (0 <? failed c)%nat
   then print_error ("Failed: " ++ str_int (Z.of_nat (failed c)))
   else ret tt) ;;
  print "".

(** [main] yields the argument of the [sys.exit] call it ends with. *)
Definition main : M Z :=
  print (LF ++ "╔" ++ str_mul "=" 48 ++ "╗") ;;
  print ("║" ++ str_mul " " 15 ++ "Workflow Examples Tester"
             ++ str_mul " " 9 ++ "║") ;;
  print ("╚" ++ str_mul "=" 48 ++ "╝" ++ LF) ;;
  running <- check_daemon ;;
  if negb running
  then ret 1%Z
  else
    (if negb (sample_data_exists fs)
     then
       print_warning ("Sample data directory not found: "
                        ++ SAMPLE_DATA_DIR) ;;
       print_warning "Some workflows may fail without input files"
     else ret tt) ;;
    match workflow_files with
    | [] =>
        print_error ("No workflow files found in " ++ WORKFLOWS_DIR) ;;
        ret 1%Z
    | _ :: _ =>
        c <- test_loop workflow_files (mkCounters 0 0 0) ;;
        print_summary c ;;
        ret (if (failed c =? 0)%nat then 0%Z else 1%Z)
    end.

(** The process: its exit status and what it did. The status is the
    [sys.exit] code, or 1 when an exception reaches the top level, where
    the interpreter prints its traceback. *)
Definition run (st : St) : Z * Trace :=
  match main st with
  | (Ok code, _, t) => (code, t)
  | (Raise e, _, t) => (1%Z, (t ++ [PrintExc e])%list)
  end.

(** *** Observations used in the statements *)

(** What [test_workflow] prints before it enters its [try] block. *)
Definition header (filepath : string) : Trace :=
  [Print (LF ++ str_mul "=" 50);
   Print (info_line ("Testing: " ++ stem filepath));
   Print (str_mul "=" 50)].

(** What [test_workflow] has done once the create call has succeeded and
    the execute call has returned. *)
Definition started (filepath : string) (workflow_id : pyval)
           (t1 t2 : Trace) : Trace :=
  (header filepath
   ++ [Print (info_line ("Creating workflow: " ++ stem filepath))]
   ++ t1
   ++ [Print (success_line ("Created workflow with ID: " ++ str workflow_id));
       Sleep 500;
       Print (info_line ("Executing workflow: " ++ stem filepath))]
   ++ t2)%list.

(** The body of the create request for a fixture that is an object with
    the items [fields]. *)
Definition create_data_of (fields : list (string * pyval)) : pyval :=
  PDict [("name", dict_get "name" (PStr "Test Workflow") fields);
         ("description", dict_get "description" (PStr "") fields);
         ("nodes", dict_get "nodes" (PList []) fields);
         ("connections", dict_get "connections" (PList []) fields)].

(** The shape the output summary relies on: the result's [output], when
    there is one, is a dict or a false value. *)
Definition output_is_mapping (result : pyval) : bool :=
  match result with
  | PDict items =>
      match dict_get "output" (PDict []) items with
      | PDict _ => true
      | v => negb (truthy v)
      end
  | _ => true
  end.

(** Ways for the create call to fail. The first three are those the
    specification lists: the call raises (connection refused, timeout,
    [HTTPError] for a 4xx or 5xx answer), the answer's status is neither
    200 nor 201, or the decoded body is an object without an ["id"]. The
    others are the remaining ways not to obtain an identifier: a body that
    does not decode, a body that is not an object, an ["id"] that is a
    false value. *)
Inductive create_failure : res Response -> Prop :=
| create_raises e : create_failure (Raise e)
| create_bad_status resp :
    status resp <> 200%Z -> status resp <> 201%Z ->
    create_failure (Ok resp)
| create_no_id resp items :
    body_json resp = Ok (PDict items) -> lookup "id" items = None ->
    create_failure (Ok resp)
| create_unreadable resp e :
    body_json resp = Raise e -> create_failure (Ok resp)
| create_not_object resp v :
    body_json resp = Ok v -> (forall items, v <> PDict items) ->
    create_failure (Ok resp)
| create_false_id resp items :
    body_json resp = Ok (PDict items) ->
    truthy (dict_get "id" PNone items) = false ->
    create_failure (Ok resp).

(** The requests one test case may send, by verdict: none, the create
    request alone, create then execute, or the whole lifecycle, where the
    execute and delete requests carry one and the same identifier. A
    passed case only ever has the last shape. *)
Inductive lifecycle (verdict : bool) : list Request -> Prop :=
| lifecycle_none : verdict = false -> lifecycle verdict []
| lifecycle_create d :
    verdict = false -> lifecycle verdict [create_request d]
| lifecycle_leak d workflow_id :
    verdict = false ->
    lifecycle verdict [create_request d; execute_request workflow_id]
| lifecycle_full d workflow_id :
    lifecycle verdict [create_request d; execute_request workflow_id;
                       delete_request workflow_id].

(** Whether a trace consists of printed lines only. *)
Definition only_prints (t : Trace) : bool :=
  forallb (fun ev => match ev with Print _ => true | _ => false end) t.

(** The pauses of a trace, in milliseconds. *)
Fixpoint slept (t : Trace) : Z :=
  match t with
  | [] => 0
  | Sleep ms :: t' => ms + slept t'
  | _ :: t' => slept t'
  end.

(** What passing takes: the fixture loaded, the create call returned a
    handle, the execute call returned an object and its status is
    ["completed"]. *)
Definition pass_evidence (filepath : string) (st : St) : Prop :=
  exists workflow_data workflow_id st1 t1 st2 t2 items,
    read_json fs filepath = Ok workflow_data
    /\ create_workflow workflow_data st = (Ok (true, workflow_id), st1, t1)
    /\ execute_workflow workflow_id st1 = (Ok (true, PDict items), st2, t2)
    /\ dict_get "status" (PStr "unknown") items = PStr "completed".




(** A failed health probe: anything but an answer with status 200. *)
Definition health_failure (answer : res Response) : Prop :=
  match answer with
  | Ok resp => status resp <> 200%Z
  | Raise _ => True
  end.

(** ** Properties *)

Ltac unfold_m :=
  unfold bind, ret, raise, try_except, emit, lift, print_status,
    print_success, print_error, print_warning, print, sleep_ms, urlopen.

(** Runs the monad's plumbing and nothing else: strings stay folded. *)
Ltac step_m :=
  cbv beta iota zeta delta
    [bind ret raise try_except emit lift print_status print_success
     print_error print_warning print sleep_ms urlopen is_exception
     fst snd negb];
  cbn [List.app].

(** Compares two traces up to the bracketing of their concatenations. *)
Ltac same_trace :=
  unfold started, header;
  repeat (progress (rewrite <- ?app_assoc, ?app_nil_r; cbn [List.app]));
  reflexivity.

(** *** The lifecycle client never raises *)

Lemma delete_workflow_spec (workflow_id : pyval) (st : St) :
  delete_workflow workflow_id st
  = (Ok tt, snd (service (delete_request workflow_id) st),
     [Http (delete_request workflow_id)]).
Proof.
  unfold delete_workflow. unfold_m.
  destruct (service (delete_request workflow_id) st) as [[resp | e] st'];
    reflexivity.
Qed.

Ltac case_m :=
  match goal with
  | |- context [service ?r ?s] =>
      destruct (service r s) as [[? | ?] ?] eqn:?
  | |- context [match body_json ?a with _ => _ end] =>
      destruct (body_json a) eqn:?
  | |- context [match py_get ?a ?k ?d with _ => _ end] =>
      destruct (py_get a k d) eqn:?
  | |- context [if ?b then _ else _] => destruct b eqn:?
  end.

Ltac run_m := step_m; repeat (case_m; step_m).

Lemma create_workflow_returns (workflow_data : pyval) (st : St) :
  exists ok workflow_id st' t,
    create_workflow workflow_data st = (Ok (ok, workflow_id), st', t)
    /\ (forall r, In r (requests t) -> exists d, r = create_request d)
    /\ (ok = false -> workflow_id = PStr "").
Proof.
  unfold create_workflow, build_create_data.
  destruct workflow_data; unfold py_get at 1 2 3 4; run_m;
    (do 4 eexists; split; [reflexivity | split; [ | try reflexivity ]]);
    try discriminate;
    intros r Hin; cbn [requests In] in Hin;
    first [ contradiction
          | destruct Hin as [<- | []]; eexists; reflexivity ].
Qed.

Lemma execute_workflow_returns (workflow_id : pyval) (st : St) :
  exists ok result st' t,
    execute_workflow workflow_id st
    = (Ok (ok, result), st', Http (execute_request workflow_id) :: t)
    /\ requests t = [].
Proof.
  unfold execute_workflow. run_m;
    (do 4 eexists; split; reflexivity).
Qed.

Lemma requests_app (t1 t2 : Trace) :
  requests (t1 ++ t2)%list = (requests t1 ++ requests t2)%list.
Proof.
  induction t1 as [| ev t1 IH]; [reflexivity |].
  destruct ev; cbn [requests List.app]; rewrite IH; reflexivity.
Qed.

(** *** The output summary *)

Lemma In_firstn {A} (n : nat) (l : list A) (x : A) :
  In x (firstn n l) -> In x l.
Proof.
  revert l; induction n as [| n IH]; intros [| y l] H; cbn in *;
    try contradiction.
  destruct H as [-> | H]; [now left | right; auto].
Qed.

Lemma lookup_key (items : list (string * pyval)) (k : string) :
  In k (map fst items) -> exists v, lookup k items = Some v.
Proof.
  induction items as [| [k' v] items IH]; cbn [map fst In lookup];
    [contradiction |].
  intros H. destruct (String.eqb_spec k' k) as [-> | Hne].
  - now exists v.
  - destruct H as [-> | H]; [contradiction | auto].
Qed.

Lemma for_each_prints {A} (xs : list A) (body : A -> M unit) (st : St) :
  (forall x, In x xs -> exists line, body x st = (Ok tt, st, [Print line])) ->
  exists t, for_each xs body st = (Ok tt, st, t) /\ requests t = [].
Proof.
  induction xs as [| x xs IH]; intros Hbody.
  - exists []. split; reflexivity.
  - destruct (Hbody x (or_introl eq_refl)) as [line Hx].
    destruct IH as [t [Ht Hr]]; [intros y H; apply Hbody; now right |].
    exists (Print line :: t).
    cbn [for_each]. unfold bind at 1. rewrite Hx, Ht.
    split; [reflexivity | exact Hr].
Qed.

Lemma print_output_summary_returns (items : list (string * pyval)) (st : St) :
  output_is_mapping (PDict items) = true ->
  exists t,
    print_output_summary (PDict items) st = (Ok tt, st, t)
    /\ requests t = [].
Proof.
  unfold output_is_mapping, print_output_summary, py_get.
  destruct (dict_get "output" (PDict []) items) as [| b | z | f | s | l | kvs]
    eqn:Hout; intros Hshape;
    try (apply negb_true_iff in Hshape; step_m; rewrite Hshape;
         exists []; split; reflexivity).
  step_m. destruct (truthy (PDict kvs)); [| exists []; split; reflexivity].
  unfold py_len, py_keys. step_m.
  match goal with |- context [for_each ?ks ?body st] =>
    destruct (for_each_prints ks body st) as [t [Ht Hr]]
  end.
  - intros k Hk. apply In_firstn in Hk.
    destruct (lookup_key kvs k Hk) as [v Hv].
    eexists. unfold py_getitem. rewrite Hv. reflexivity.
  - rewrite Ht. eexists. split; [reflexivity |].
    cbn [requests]. exact Hr.
Qed.

(** *** The paths through [test_workflow] *)

Lemma test_workflow_load_raises (filepath : string) (e : exn) (st : St) :
  read_json fs filepath = Raise e ->
  test_workflow filepath st
  = (Ok false, st,
     (header filepath
      ++ [Print (error_line ("Test failed with exception: " ++ exn_text e));
          PrintExc e])%list).
Proof.
  intros Hload. unfold test_workflow, load_workflow. step_m.
  rewrite Hload. reflexivity.
Qed.

Lemma test_workflow_create_failed
      (filepath : string) (workflow_data workflow_id : pyval)
      (st st1 : St) (t1 : Trace) :
  read_json fs filepath = Ok workflow_data ->
  create_workflow workflow_data st = (Ok (false, workflow_id), st1, t1) ->
  test_workflow filepath st
  = (Ok false, st1,
     (header filepath
      ++ [Print (info_line ("Creating workflow: " ++ stem filepath))]
      ++ t1
      ++ [Print (error_line ("Failed to create workflow: "
                               ++ stem filepath))])%list).
Proof.
  intros Hload Hcreate. unfold test_workflow, load_workflow. step_m.
  rewrite Hload. step_m. rewrite Hcreate. same_trace.
Qed.

Section AfterCreate.

Variables (filepath : string) (workflow_data workflow_id : pyval).
Variables (st st1 st2 : St) (t1 t2 : Trace).
Variables (executed : bool) (result : pyval).
Hypothesis Hload : read_json fs filepath = Ok workflow_data.
Hypothesis Hcreate :
  create_workflow workflow_data st = (Ok (true, workflow_id), st1, t1).
Hypothesis Hexecute :
  execute_workflow workflow_id st1 = (Ok (executed, result), st2, t2).

Ltac enter :=
  unfold test_workflow, load_workflow; step_m;
  rewrite Hload; step_m; rewrite Hcreate; step_m;
  rewrite Hexecute; step_m.

Lemma test_workflow_execute_failed :
  executed = false ->
  test_workflow filepath st
  = (Ok false, snd (service (delete_request workflow_id) st2),
     (started filepath workflow_id t1 t2
      ++ [Print (error_line "Workflow execution failed");
          Http (delete_request workflow_id)])%list).
Proof.
  intros ->. enter. rewrite delete_workflow_spec.
  same_trace.
Qed.

Lemma test_workflow_not_a_dict (e : exn) :
  executed = true ->
  py_get result "status" (PStr "unknown") = Raise e ->
  test_workflow filepath st
  = (Ok false, st2,
     (started filepath workflow_id t1 t2
      ++ [Print (error_line ("Test failed with exception: " ++ exn_text e));
          PrintExc e])%list).
Proof.
  intros -> Hget. enter. rewrite Hget. same_trace.
Qed.

Lemma test_workflow_other_status (wf_status : pyval) :
  executed = true ->
  py_get result "status" (PStr "unknown") = Ok wf_status ->
  eq_str wf_status "completed" = false ->
  test_workflow filepath st
  = (Ok false, snd (service (delete_request workflow_id) st2),
     (started filepath workflow_id t1 t2
      ++ [Print (error_line ("Workflow completed with status: "
                               ++ str wf_status));
          Print ("  Result: " ++ str_take 500 (json_dumps_indent2 rt result));
          Http (delete_request workflow_id)])%list).
Proof.
  intros -> Hget Hne. enter. rewrite Hget. step_m. rewrite Hne. step_m.
  rewrite delete_workflow_spec.
  same_trace.
Qed.

Lemma test_workflow_completed (wf_status : pyval) (st3 : St) (t3 : Trace) :
  executed = true ->
  py_get result "status" (PStr "unknown") = Ok wf_status ->
  eq_str wf_status "completed" = true ->
  print_output_summary result st2 = (Ok tt, st3, t3) ->
  exists t,
    test_workflow filepath st
    = (Ok true, snd (service (delete_request workflow_id) st3),
       (started filepath workflow_id t1 t2
        ++ t ++ t3 ++ [Http (delete_request workflow_id)])%list)
    /\ requests t = [].
Proof.
  intros -> Hget Heq Hsummary. enter. rewrite Hget. step_m. rewrite Heq.
  destruct result; try discriminate Hget. unfold py_get. step_m.
  rewrite Hsummary. step_m. rewrite delete_workflow_spec.
  eexists [_; _; _]. split; [same_trace | reflexivity].
Qed.

Lemma test_workflow_summary_raises
      (wf_status : pyval) (e : exn) (st3 : St) (t3 : Trace) :
  executed = true ->
  py_get result "status" (PStr "unknown") = Ok wf_status ->
  eq_str wf_status "completed" = true ->
  print_output_summary result st2 = (Raise e, st3, t3) ->
  exists t,
    test_workflow filepath st
    = (Ok false, st3,
       (started filepath workflow_id t1 t2
        ++ t ++ t3
        ++ [Print (error_line ("Test failed with exception: " ++ exn_text e));
            PrintExc e])%list)
    /\ requests t = [].
Proof.
  intros -> Hget Heq Hsummary. enter. rewrite Hget. step_m. rewrite Heq.
  destruct result; try discriminate Hget. unfold py_get. step_m.
  rewrite Hsummary. step_m.
  eexists [_; _; _]. split; [same_trace | reflexivity].
Qed.

Lemma requests_started :
  requests (started filepath workflow_id t1 t2)
  = (requests t1 ++ requests t2)%list.
Proof.
  unfold started, header. rewrite !requests_app. cbn [requests List.app].
  reflexivity.
Qed.

(** On every path that leaves the [try] block by a [return], the delete
    request is sent, once and last. *)
Lemma delete_sent_on_return :
  executed = false
  \/ (executed = true
      /\ exists wf_status,
          py_get result "status" (PStr "unknown") = Ok wf_status
          /\ (eq_str wf_status "completed" = false
              \/ output_is_mapping result = true)) ->
  exists verdict st' t,
    test_workflow filepath st = (Ok verdict, st', t)
    /\ requests t
       = (requests t1 ++ requests t2 ++ [delete_request workflow_id])%list.
Proof.
  intros [Hfailed | (Hexecuted & wf_status & Hget & Hcases)].
  - do 3 eexists. split.
    + apply test_workflow_execute_failed. exact Hfailed.
    + rewrite requests_app, requests_started, <- app_assoc. reflexivity.
  - destruct (eq_str wf_status "completed") eqn:Heq.
    + destruct Hcases as [Hne | Hshape]; [discriminate |].
      assert (Hdict : exists items, result = PDict items).
      { clear - Hget. destruct result; try discriminate Hget. eauto. }
      destruct Hdict as [items Hdict].
      pose proof (print_output_summary_returns items st2) as Hreturns.
      rewrite <- Hdict in Hreturns.
      destruct (Hreturns Hshape) as [t3 [Hsummary Hquiet]].
      destruct (test_workflow_completed wf_status st2 t3
                  Hexecuted Hget Heq Hsummary) as [t [Ht Hreq]].
      do 3 eexists. split; [exact Ht |].
      rewrite !requests_app, requests_started, Hreq, Hquiet, <- app_assoc.
      reflexivity.
    + do 3 eexists. split.
      * apply test_workflow_other_status; eassumption.
      * rewrite requests_app, requests_started, <- app_assoc. reflexivity.
Qed.

End AfterCreate.

Lemma started_split (filepath : string) (workflow_id : pyval)
      (t1 t2 rest : Trace) :
  (started filepath workflow_id t1 t2 ++ rest)%list
  = (header filepath
     ++ [Print (info_line ("Creating workflow: " ++ stem filepath))]
     ++ t1
     ++ ([Print (success_line ("Created workflow with ID: "
                                 ++ str workflow_id));
          Sleep 500;
          Print (info_line ("Executing workflow: " ++ stem filepath))]
         ++ t2 ++ rest))%list.
Proof. same_trace. Qed.

(** Once the fixture is loaded, [test_workflow] runs the create call and
    returns a verdict whatever happens next. *)
Lemma test_workflow_loaded
      (filepath : string) (workflow_data : pyval) (st : St) :
  read_json fs filepath = Ok workflow_data ->
  exists verdict st' rest,
    test_workflow filepath st
    = (Ok verdict, st',
       (header filepath
        ++ [Print (info_line ("Creating workflow: " ++ stem filepath))]
        ++ snd (create_workflow workflow_data st)
        ++ rest)%list).
Proof.
  intros Hload.
  destruct (create_workflow_returns workflow_data st)
    as (created & workflow_id & st1 & t1 & Hcreate & _).
  rewrite Hcreate. cbn [snd].
  destruct created.
  2:{ do 3 eexists. eapply test_workflow_create_failed; eassumption. }
  destruct (execute_workflow_returns workflow_id st1)
    as (executed & result & st2 & t2 & Hexecute & _).
  destruct executed.
  2:{ do 3 eexists. rewrite <- started_split.
      eapply test_workflow_execute_failed; try eassumption; reflexivity. }
  destruct (py_get result "status" (PStr "unknown")) as [wf_status | e]
    eqn:Hget.
  2:{ do 3 eexists. rewrite <- started_split.
      eapply test_workflow_not_a_dict; try eassumption; reflexivity. }
  destruct (eq_str wf_status "completed") eqn:Heq.
  2:{ do 3 eexists. rewrite <- started_split.
      eapply test_workflow_other_status; try eassumption; reflexivity. }
  destruct (print_output_summary result st2) as [[[[] | e] st3] t3]
    eqn:Hsummary.
  - destruct (test_workflow_completed filepath workflow_data workflow_id
                st st1 st2 t1 _ true result Hload Hcreate Hexecute
                wf_status st3 t3 eq_refl Hget Heq Hsummary) as [t [Ht _]].
    do 3 eexists. rewrite <- started_split. exact Ht.
  - destruct (test_workflow_summary_raises filepath workflow_data workflow_id
                st st1 st2 t1 _ true result Hload Hcreate Hexecute
                wf_status e st3 t3 eq_refl Hget Heq Hsummary) as [t [Ht _]].
    do 3 eexists. rewrite <- started_split. exact Ht.
Qed.

(** [test_workflow] always returns a verdict: no exception leaves it. *)
Lemma test_workflow_returns (filepath : string) (st : St) :
  exists verdict st' t, test_workflow filepath st = (Ok verdict, st', t).
Proof.
  destruct (read_json fs filepath) as [workflow_data | e] eqn:Hload.
  - destruct (test_workflow_loaded filepath workflow_data st Hload)
      as (verdict & st' & rest & H).
    do 3 eexists. exact H.
  - do 3 eexists. apply test_workflow_load_raises; eassumption.
Qed.

(** *** The create call *)

Lemma create_workflow_sends (fields : list (string * pyval)) (st : St) :
  exists created t,
    create_workflow (PDict fields) st
    = (Ok created, snd (service (create_request (create_data_of fields)) st),
       Http (create_request (create_data_of fields)) :: t)
    /\ requests t = [].
Proof.
  unfold create_workflow, build_create_data, create_data_of.
  unfold py_get at 1 2 3 4. run_m;
    do 2 eexists; split; reflexivity.
Qed.

Lemma create_workflow_fails (fields : list (string * pyval)) (st : St) :
  create_failure (fst (service (create_request (create_data_of fields)) st)) ->
  exists t,
    create_workflow (PDict fields) st
    = (Ok (false, PStr ""),
       snd (service (create_request (create_data_of fields)) st),
       Http (create_request (create_data_of fields)) :: t)
    /\ requests t = [].
Proof.
  unfold create_workflow, build_create_data, create_data_of.
  unfold py_get at 1 2 3 4. step_m.
  match goal with |- context [service ?r st] =>
    destruct (service r st) as [[resp | e] st1]
  end; cbn [fst snd]; intros Hfail; step_m.
  2:{ eexists. split; reflexivity. }
  destruct ((status resp =? 200)%Z || (status resp =? 201)%Z) eqn:Hstatus;
    step_m; [| eexists; split; reflexivity].
  inversion Hfail as [| resp' H200 H201 | resp' items Hbody Hid
                      | resp' e Hbody | resp' v Hbody Hv
                      | resp' items Hbody Hid]; subst.
  - apply Z.eqb_neq in H200, H201. rewrite H200, H201 in Hstatus.
    discriminate Hstatus.
  - rewrite Hbody. unfold py_get, dict_get. rewrite Hid. step_m.
    eexists. split; reflexivity.
  - rewrite Hbody. step_m. eexists. split; reflexivity.
  - rewrite Hbody. step_m.
    destruct v; try (eexists; split; reflexivity).
    exfalso. eapply Hv. reflexivity.
  - rewrite Hbody. unfold py_get. step_m. rewrite Hid. step_m.
    eexists. split; reflexivity.
Qed.

(** C3. When the create call fails - [urlopen] raises (connection error,
    timeout, or the [HTTPError] of a 4xx or 5xx answer), the answer's
    status is neither 200 nor 201, or a 200/201 body has no ["id"] - the
    case is failed, and the create request is the only request of the
    case: no execute and no delete request is sent. *)
Theorem create_failure_ends_case
        (filepath : string) (fields : list (string * pyval)) (st : St) :
  read_json fs filepath = Ok (PDict fields) ->
  create_failure (fst (service (create_request (create_data_of fields)) st)) ->
  exists st' t,
    test_workflow filepath st = (Ok false, st', t)
    /\ requests t = [create_request (create_data_of fields)]
    /\ (forall workflow_id,
           ~ In (execute_request workflow_id) (requests t)
           /\ ~ In (delete_request workflow_id) (requests t))
    /\ In (Print (error_line ("Failed to create workflow: " ++ stem filepath)))
          t.
Proof.
  intros Hload Hfail.
  destruct (create_workflow_fails fields st Hfail) as [t1 [Hcreate Hreq]].
  do 2 eexists. split.
  - eapply test_workflow_create_failed; eassumption.
  - assert (Hr : requests
                   (header filepath
                    ++ [Print (info_line ("Creating workflow: "
                                            ++ stem filepath))]
                    ++ (Http (create_request (create_data_of fields)) :: t1)
                    ++ [Print (error_line ("Failed to create workflow: "
                                             ++ stem filepath))])%list
                 = [create_request (create_data_of fields)]).
    { rewrite !requests_app. cbn [requests List.app]. rewrite Hreq.
      reflexivity. }
    split; [exact Hr |]. split.
    + intros workflow_id. rewrite Hr. cbn [In].
      split; intros [H | []]; discriminate H.
    + apply in_or_app. right. apply in_or_app. right.
      apply in_or_app. right. left. reflexivity.
Qed.

(** C10. A fixture that is a JSON object is never rejected for a missing
    field: [test_workflow] returns a verdict and the first request of the
    case is the create request, whose body takes ["Test Workflow"] for a
    missing name, the empty string for a missing description and the empty
    array for missing nodes or connections. *)
Theorem missing_fields_default
        (filepath : string) (fields : list (string * pyval)) (st : St) :
  read_json fs filepath = Ok (PDict fields) ->
  exists name description nodes connections verdict st' t later,
    test_workflow filepath st = (Ok verdict, st', t)
    /\ requests t
       = create_request (PDict [("name", name); ("description", description);
                                ("nodes", nodes);
                                ("connections", connections)])
         :: later
    /\ (lookup "name" fields = None -> name = PStr "Test Workflow")
    /\ (lookup "description" fields = None -> description = PStr "")
    /\ (lookup "nodes" fields = None -> nodes = PList [])
    /\ (lookup "connections" fields = None -> connections = PList []).
Proof.
  intros Hload.
  destruct (test_workflow_loaded filepath (PDict fields) st Hload)
    as (verdict & st' & rest & Htest).
  destruct (create_workflow_sends fields st) as (created & t1 & Hcreate & _).
  rewrite Hcreate in Htest. cbn [snd] in Htest.
  exists (dict_get "name" (PStr "Test Workflow") fields),
         (dict_get "description" (PStr "") fields),
         (dict_get "nodes" (PList []) fields),
         (dict_get "connections" (PList []) fields).
  do 4 eexists. split; [exact Htest |]. split.
  - rewrite !requests_app. cbn [requests List.app]. reflexivity.
  - unfold dict_get.
    repeat split; intros H; rewrite H; reflexivity.
Qed.

(** *** Verdicts *)


(** C9. When the execute call succeeds at the transport level and the
    decoded body is an object without a ["status"] key, the case is failed
    and the status reported in the error line is the literal
    ["unknown"]. *)
Theorem missing_status_is_unknown
        (filepath : string) (workflow_data workflow_id : pyval)
        (items : list (string * pyval))
        (st st1 st2 : St) (t1 t2 : Trace) :
  read_json fs filepath = Ok workflow_data ->
  create_workflow workflow_data st = (Ok (true, workflow_id), st1, t1) ->
  execute_workflow workflow_id st1 = (Ok (true, PDict items), st2, t2) ->
  lookup "status" items = None ->
  exists st' t,
    test_workflow filepath st = (Ok false, st', t)
    /\ In (Print (error_line "Workflow completed with status: unknown")) t.
Proof.
  intros Hload Hcreate Hexecute Hmissing.
  do 2 eexists. split.
  - eapply test_workflow_other_status with (wf_status := PStr "unknown");
      try eassumption; try reflexivity.
    unfold py_get, dict_get. rewrite Hmissing. reflexivity.
  - apply in_or_app. right. left. reflexivity.
Qed.

(** *** The loop over the fixtures *)

Lemma test_loop_returns (files : list string) (c : Counters) (st : St) :
  exists c' st' t,
    test_loop files c st = (Ok c', st', t)
    /\ total c' = total c + List.length files
    /\ passed c' + failed c' = passed c + failed c + List.length files.
Proof.
  revert c st. induction files as [| f files IH]; intros c st.
  - exists c, st, []. cbn [List.length]. repeat split; lia.
  - destruct (test_workflow_returns f st) as (verdict & st1 & t1 & Htest).
    cbn [test_loop]. step_m. rewrite Htest. step_m.
    match goal with |- context [test_loop files ?c1 st1] =>
      destruct (IH c1 st1) as (c' & st' & t & Hloop & Htotal & Hsum)
    end.
    rewrite Hloop. exists c', st'. eexists. split; [reflexivity |].
    cbn [List.length]. destruct verdict; cbn [total passed failed] in *; lia.
Qed.

Lemma test_loop_app (files1 files2 : list string) (c c1 : Counters)
      (st st1 st2 : St) (t1 t2 : Trace) (r : res Counters) :
  test_loop files1 c st = (Ok c1, st1, t1) ->
  test_loop files2 c1 st1 = (r, st2, t2) ->
  test_loop (files1 ++ files2) c st = (r, st2, (t1 ++ t2)%list).
Proof.
  revert c st t1. induction files1 as [| f files1 IH]; intros c st t1 H1 H2.
  - cbn in H1. inversion H1; subst. exact H2.
  - cbn [test_loop List.app] in *. revert H1. step_m.
    destruct (test_workflow f st) as [[[verdict | e] st'] t'];
      [| discriminate].
    step_m.
    match goal with |- context [test_loop files1 ?c' st'] =>
      destruct (test_loop files1 c' st') as [[[c'' | e] st''] t''] eqn:Hrest
    end; intros H1; inversion H1; subst.
    rewrite (IH _ _ _ Hrest H2). same_trace.
Qed.

(** C6. The loop returns for every list of fixtures, and the counters it
    returns from zero satisfy [total = passed + failed], with [total] the
    number of fixtures: each fixture adds one to [total] and one to exactly
    one of [passed] and [failed]. *)
Theorem counters_add_up (st : St) :
  exists c st' t,
    test_loop workflow_files (mkCounters 0 0 0) st = (Ok c, st', t)
    /\ total c = passed c + failed c
    /\ total c = List.length workflow_files.
Proof.
  destruct (test_loop_returns workflow_files (mkCounters 0 0 0) st)
    as (c & st' & t & Hloop & Htotal & Hsum).
  exists c, st', t. cbn [total passed failed] in *.
  split; [exact Hloop | lia].
Qed.

(** C8. A fixture that fails to parse costs one failed entry and nothing
    else: it is reported with the parser's message, no request is sent for
    it, the loop goes on from the same service state, and every fixture
    after it is tested, so that [total] still counts them all. *)
Theorem malformed_fixture_fails_alone
        (before after : list string) (bad : string) (e : exn)
        (c : Counters) (st : St) :
  read_json fs bad = Raise e ->
  exists c1 st1 t1 c2 st2 t2,
    test_loop before c st = (Ok c1, st1, t1)
    /\ test_loop after
                 (mkCounters (total c1 + 1) (passed c1) (failed c1 + 1)) st1
       = (Ok c2, st2, t2)
    /\ test_loop (before ++ bad :: after) c st
       = (Ok c2, st2,
          (t1
           ++ header bad
           ++ [Print (error_line ("Test failed with exception: "
                                    ++ exn_text e));
               PrintExc e; Sleep 1000]
           ++ t2)%list)
    /\ total c2 = total c + List.length (before ++ bad :: after).
Proof.
  intros Hbad.
  destruct (test_loop_returns before c st)
    as (c1 & st1 & t1 & Hbefore & Htotal1 & _).
  destruct (test_loop_returns after
              (mkCounters (total c1 + 1) (passed c1) (failed c1 + 1)) st1)
    as (c2 & st2 & t2 & Hafter & Htotal2 & _).
  exists c1, st1, t1, c2, st2, t2.
  split; [exact Hbefore |]. split; [exact Hafter |]. split.
  - eapply test_loop_app; [exact Hbefore |].
    cbn [test_loop]. step_m.
    rewrite (test_workflow_load_raises bad e st1 Hbad). step_m.
    cbn [total passed failed]. rewrite Hafter. same_trace.
  - rewrite length_app. cbn [List.length total] in *. lia.
Qed.

(** *** The run as a whole *)

Lemma check_daemon_ok (st st1 : St) (resp : Response) :
  service health_request st = (Ok resp, st1) ->
  status resp = 200%Z ->
  check_daemon st
  = (Ok true, st1,
     [Print (info_line "Checking if daemon is running...");
      Http health_request;
      Print (success_line "Daemon is running")]).
Proof.
  intros Hanswer H200. unfold check_daemon. step_m.
  rewrite Hanswer. step_m. rewrite H200. reflexivity.
Qed.

Lemma check_daemon_fails (st : St) :
  health_failure (fst (service health_request st)) ->
  exists r t,
    check_daemon st = (r, snd (service health_request st), t)
    /\ r <> Ok true
    /\ requests t = [health_request].
Proof.
  unfold check_daemon. step_m.
  destruct (service health_request st) as [[resp | e] st1];
    cbn [fst snd health_failure]; intros Hfail; step_m.
  - apply Z.eqb_neq in Hfail. rewrite Hfail. step_m.
    do 2 eexists. split; [reflexivity |]. split; [discriminate | reflexivity].
  - destruct (is_url_error e); step_m;
      do 2 eexists; (split; [reflexivity |]);
      (split; [discriminate | reflexivity]).
Qed.

(** C4. When the health probe fails - [urlopen] raises, whatever the
    exception, or the answer's status is not 200 - the process exits with
    status 1 and the probe is the only request of the run: no create,
    execute or delete request is sent. *)
Theorem health_failure_aborts (st : St) :
  health_failure (fst (service health_request st)) ->
  exists t,
    run st = (1%Z, t)
    /\ requests t = [health_request].
Proof.
  intros Hfail.
  destruct (check_daemon_fails st Hfail) as (r & t & Hcheck & Hr & Hreq).
  unfold run, main. step_m. rewrite Hcheck.
  destruct r as [[] | e]; [contradiction | |]; step_m;
    (eexists; split; [reflexivity |]);
    cbn [requests]; rewrite ?app_nil_r, ?requests_app;
    cbn [requests]; rewrite ?app_nil_r; exact Hreq.
Qed.

(** What [main] prints before it looks for fixtures, on a healthy
    daemon. *)
Lemma main_healthy (st st1 : St) (resp : Response) :
  service health_request st = (Ok resp, st1) ->
  status resp = 200%Z ->
  exists pre,
    requests pre = [health_request]
    /\ main st
       = match workflow_files with
         | [] =>
             (Ok 1%Z, st1,
              (pre ++ [Print (error_line ("No workflow files found in "
                                            ++ WORKFLOWS_DIR))])%list)
         | _ :: _ =>
             match test_loop workflow_files (mkCounters 0 0 0) st1 with
             | (Ok c, st2, t) =>
                 (Ok (if (failed c =? 0)%nat then 0%Z else 1%Z), st2,
                  (pre ++ t ++ snd (print_summary c st2))%list)
             | (Raise e, st2, t) => (Raise e, st2, (pre ++ t)%list)
             end
         end.
Proof.
  intros Hanswer H200. unfold main. step_m.
  rewrite (check_daemon_ok st st1 resp Hanswer H200). step_m.
  destruct (sample_data_exists fs); step_m.
  - eexists (_ :: _ :: _ :: _ :: _ :: _ :: []). split; cycle 1.
    + destruct workflow_files as [| f files]; step_m; [reflexivity |].
      destruct (test_loop (f :: files) (mkCounters 0 0 0) st1)
        as [[[c | e] st2] t]; step_m; [| reflexivity].
      unfold print_summary. step_m.
      destruct (0 <? failed c)%nat; step_m; same_trace.
    + reflexivity.
  - eexists (_ :: _ :: _ :: _ :: _ :: _ :: _ :: _ :: []). split; cycle 1.
    + destruct workflow_files as [| f files]; step_m; [reflexivity |].
      destruct (test_loop (f :: files) (mkCounters 0 0 0) st1)
        as [[[c | e] st2] t]; step_m; [| reflexivity].
      unfold print_summary. step_m.
      destruct (0 <? failed c)%nat; step_m; same_trace.
    + reflexivity.
Qed.

(** C7. On a healthy daemon, when no entry of the fixtures directory
    matches [*.json], the run ends with status 1 right after the error line
    that says no workflow files were found, and the health probe is its
    only request. *)
Theorem no_fixtures_aborts (st st1 : St) (resp : Response) :
  service health_request st = (Ok resp, st1) ->
  status resp = 200%Z ->
  filter glob_json (listdir fs) = [] ->
  exists pre,
    run st
    = (1%Z,
       (pre ++ [Print (error_line
                         "No workflow files found in examples/workflows")])%list)
    /\ requests pre = [health_request].
Proof.
  intros Hanswer H200 Hnone.
  destruct (main_healthy st st1 resp Hanswer H200) as (pre & Hpre & Hmain).
  unfold run. rewrite Hmain. unfold workflow_files. rewrite Hnone.
  exists pre. split; [reflexivity | exact Hpre].
Qed.

(** C5. On a healthy daemon with at least one fixture, the loop runs to
    its end and the exit status is 0 when its [failed] counter is 0 and 1
    otherwise. *)
Theorem exit_status_reflects_failures (st st1 : St) (resp : Response) :
  service health_request st = (Ok resp, st1) ->
  status resp = 200%Z ->
  workflow_files <> [] ->
  exists c st2 t,
    test_loop workflow_files (mkCounters 0 0 0) st1 = (Ok c, st2, t)
    /\ (fst (run st) = 0%Z <-> failed c = 0)
    /\ (failed c <> 0 -> fst (run st) = 1%Z).
Proof.
  intros Hanswer H200 Hsome.
  destruct (main_healthy st st1 resp Hanswer H200) as (pre & _ & Hmain).
  destruct (test_loop_returns workflow_files (mkCounters 0 0 0) st1)
    as (c & st2 & t & Hloop & _).
  exists c, st2, t. split; [exact Hloop |].
  unfold run. rewrite Hmain.
  destruct workflow_files as [| f files]; [contradiction |].
  rewrite Hloop. cbn [fst].
  destruct (Nat.eqb_spec (failed c) 0) as [Hz | Hnz].
  - split; [split; auto | contradiction].
  - split; [split; [discriminate | contradiction] | reflexivity].
Qed.

(** ** Further properties *)

(** *** What the lifecycle client accepts *)



(** *** The health probe *)

(** [check_daemon] sends the probe and nothing else. It returns [True]
    exactly when the answer has status 200. It catches [URLError] and
    [HTTPError] only: any other exception raised by [urlopen] leaves
    [check_daemon] as it is. The advice on how to start the daemon is
    printed exactly when it returns [False]. *)
Theorem probe_catches_url_errors_only (st : St) :
  let answer := fst (service health_request st) in
  exists r t,
    check_daemon st = (r, snd (service health_request st), t)
    /\ requests t = [health_request]
    /\ (r = Ok true <-> exists resp, answer = Ok resp /\ status resp = 200%Z)
    /\ (forall e, r = Raise e <-> answer = Raise e /\ is_url_error e = false)
    /\ (In (Print (error_line
                     "Please start it with: cargo run --bin agency-daemon --release"))
           t
        <-> r = Ok false).
Proof.
  intros answer. subst answer. unfold check_daemon. step_m.
  destruct (service health_request st) as [[resp | e] st1];
    cbn [fst snd]; step_m.
  - destruct (status resp =? 200)%Z eqn:Hstatus; step_m;
      do 2 eexists; (split; [reflexivity |]); (split; [reflexivity |]).
    + apply Z.eqb_eq in Hstatus. split; [| split].
      * split; [intros _; exists resp; auto | reflexivity].
      * intros e. split; [discriminate | intros [H _]; discriminate H].
      * split; [| discriminate].
        intros [H | [H | [H | []]]]; vm_compute in H; discriminate H.
    + apply Z.eqb_neq in Hstatus. split; [| split].
      * split; [discriminate |].
        intros (resp' & H & Hcode). inversion H; subst resp'. contradiction.
      * intros e. split; [discriminate | intros [H _]; discriminate H].
      * split; [reflexivity |]. intros _. do 3 right. left. reflexivity.
  - destruct (is_url_error e) eqn:Hurl; step_m;
      do 2 eexists; (split; [reflexivity |]); (split; [reflexivity |]).
    + split; [| split].
      * split; [discriminate | intros (? & H & _); discriminate H].
      * intros e'. split; [discriminate |].
        intros [H Hne]. inversion H; subst e'.
        rewrite Hurl in Hne. discriminate Hne.
      * split; [reflexivity |]. intros _. do 3 right. left. reflexivity.
    + split; [| split].
      * split; [discriminate | intros (? & H & _); discriminate H].
      * intros e'. split.
        -- intros H. inversion H; subst e'. auto.
        -- intros [H _]. inversion H; subst e'. reflexivity.
      * split; [| discriminate].
        intros [H | [H | []]]; vm_compute in H; discriminate H.
Qed.

(** *** Fixtures that are not objects *)

Lemma create_workflow_non_object (workflow_data : pyval) (st : St) :
  (forall fields, workflow_data <> PDict fields) ->
  create_workflow workflow_data st
  = (Ok (false, PStr ""), st,
     [Print (error_line ("Exception creating workflow: "
                           ++ exn_text (no_attribute workflow_data "get")))]).
Proof.
  intros Hshape. unfold create_workflow, build_create_data.
  destruct workflow_data; try reflexivity.
  exfalso. eapply Hshape. reflexivity.
Qed.

(** A fixture that parses to something other than an object (an array, a
    string, a number, [null]) fails its case before anything is sent: the
    attribute error of [workflow_data.get] is reported by
    [create_workflow], no request is made and the service is left as it
    was. *)
Theorem non_object_fixture_sends_nothing
        (filepath : string) (workflow_data : pyval) (st : St) :
  read_json fs filepath = Ok workflow_data ->
  (forall fields, workflow_data <> PDict fields) ->
  exists t,
    test_workflow filepath st = (Ok false, st, t)
    /\ requests t = []
    /\ In (Print (error_line
                    ("Exception creating workflow: '"
                       ++ type_name workflow_data
                       ++ "' object has no attribute 'get'")))
          t.
Proof.
  intros Hload Hshape. eexists. split.
  - eapply test_workflow_create_failed; [exact Hload |].
    apply create_workflow_non_object. exact Hshape.
  - split; [reflexivity |].
    apply in_or_app. right. apply in_or_app. right.
    apply in_or_app. left. left. reflexivity.
Qed.

(** *** The anatomy of one test case *)

Lemma only_prints_app (t1 t2 : Trace) :
  only_prints (t1 ++ t2)%list = only_prints t1 && only_prints t2.
Proof. apply forallb_app. Qed.

Lemma only_prints_quiet (t : Trace) :
  only_prints t = true -> requests t = [] /\ slept t = 0%Z.
Proof.
  induction t as [| ev t IH]; [split; reflexivity |].
  destruct ev; cbn [only_prints forallb andb]; try discriminate.
  exact IH.
Qed.

Lemma slept_app (t1 t2 : Trace) :
  slept (t1 ++ t2)%list = (slept t1 + slept t2)%Z.
Proof.
  induction t1 as [| ev t1 IH]; [reflexivity |].
  destruct ev; cbn [slept List.app]; rewrite IH; lia.
Qed.

Lemma for_each_only_prints {A} (xs : list A) (body : A -> M unit) (st : St) :
  (forall x, exists r t, body x st = (r, st, t) /\ only_prints t = true) ->
  exists r t, for_each xs body st = (r, st, t) /\ only_prints t = true.
Proof.
  intros Hbody. induction xs as [| x xs IH].
  - exists (Ok tt), []. split; reflexivity.
  - destruct (Hbody x) as (r & t & Hx & Ht).
    destruct IH as (r' & t' & Hxs & Ht').
    cbn [for_each]. unfold bind at 1. rewrite Hx.
    destruct r as [[] | e].
    + rewrite Hxs. do 2 eexists. split; [reflexivity |].
      rewrite only_prints_app, Ht, Ht'. reflexivity.
    + do 2 eexists. split; [reflexivity | exact Ht].
Qed.

(** The output summary only prints: whatever the result is, it sends no
    request, does not pause and leaves the service as it was. *)
Lemma print_output_summary_only_prints (result : pyval) (st : St) :
  exists r t,
    print_output_summary result st = (r, st, t) /\ only_prints t = true.
Proof.
  unfold print_output_summary.
  destruct (py_get result "output" (PDict [])) as [output | e] eqn:Hget;
    step_m; [| do 2 eexists; split; reflexivity].
  destruct (truthy output); step_m; [| do 2 eexists; split; reflexivity].
  destruct (py_len output) as [n | e]; step_m;
    [| do 2 eexists; split; reflexivity].
  destruct (py_keys output) as [keys | e]; step_m;
    [| do 2 eexists; split; reflexivity].
  match goal with |- context [for_each ?ks ?body st] =>
    destruct (for_each_only_prints ks body st) as (r & t & Hloop & Ht)
  end.
  - intros key. destruct (py_getitem output key) as [value | e];
      do 2 eexists; split; reflexivity.
  - rewrite Hloop. do 2 eexists. split; [reflexivity |].
    cbn [only_prints forallb andb]. exact Ht.
Qed.


Lemma create_workflow_anatomy (workflow_data : pyval) (st : St) :
  exists ok workflow_id st' t,
    create_workflow workflow_data st = (Ok (ok, workflow_id), st', t)
    /\ ((ok = false /\ only_prints t = true)
        \/ exists d prints,
            t = Http (create_request d) :: prints
            /\ only_prints prints = true).
Proof.
  unfold create_workflow, build_create_data.
  destruct workflow_data; unfold py_get at 1 2 3 4; run_m;
    do 4 eexists; (split; [reflexivity |]);
    first [ left; split; reflexivity
          | right; do 2 eexists; split; reflexivity ].
Qed.

Lemma execute_workflow_anatomy (workflow_id : pyval) (st : St) :
  exists ok result st' prints,
    execute_workflow workflow_id st
    = (Ok (ok, result), st', Http (execute_request workflow_id) :: prints)
    /\ only_prints prints = true.
Proof.
  unfold execute_workflow. run_m; do 4 eexists; split; reflexivity.
Qed.

Lemma slept_started (filepath : string) (workflow_id : pyval)
      (t1 t2 : Trace) :
  slept (started filepath workflow_id t1 t2)
  = (slept t1 + 500 + slept t2)%Z.
Proof.
  unfold started, header. rewrite !slept_app. cbn [slept]. lia.
Qed.

Ltac measure :=
  rewrite ?requests_app, ?slept_app, ?requests_started, ?slept_started;
  cbn [requests slept List.app];
  repeat match goal with
         | H : only_prints ?t = true |- _ =>
             destruct (only_prints_quiet t H) as [? ?]; clear H
         end;
  repeat match goal with
         | H : requests ?t = [] |- _ => rewrite !H
         | H : slept ?t = 0%Z |- _ => rewrite !H
         end;
  cbn [List.app].

Lemma test_workflow_passes
      (filepath : string) (workflow_data workflow_id result wf_status : pyval)
      (st st1 st2 st3 : St) (t1 t2 t3 : Trace) :
  read_json fs filepath = Ok workflow_data ->
  create_workflow workflow_data st = (Ok (true, workflow_id), st1, t1) ->
  execute_workflow workflow_id st1 = (Ok (true, result), st2, t2) ->
  py_get result "status" (PStr "unknown") = Ok wf_status ->
  eq_str wf_status "completed" = true ->
  print_output_summary result st2 = (Ok tt, st3, t3) ->
  exists prints,
    test_workflow filepath st
    = (Ok true, snd (service (delete_request workflow_id) st3),
       (started filepath workflow_id t1 t2
        ++ prints ++ t3 ++ [Http (delete_request workflow_id)])%list)
    /\ only_prints prints = true.
Proof.
  intros Hload Hcreate Hexecute Hget Heq Hsummary.
  unfold test_workflow, load_workflow. step_m.
  rewrite Hload. step_m. rewrite Hcreate. step_m. rewrite Hexecute. step_m.
  rewrite Hget. step_m. rewrite Heq.
  destruct result; try discriminate Hget. unfold py_get. step_m.
  rewrite Hsummary. step_m. rewrite delete_workflow_spec.
  eexists [_; _; _]. split; [same_trace | reflexivity].
Qed.

Lemma test_workflow_leaks
      (filepath : string) (workflow_data workflow_id result wf_status : pyval)
      (e : exn) (st st1 st2 st3 : St) (t1 t2 t3 : Trace) :
  read_json fs filepath = Ok workflow_data ->
  create_workflow workflow_data st = (Ok (true, workflow_id), st1, t1) ->
  execute_workflow workflow_id st1 = (Ok (true, result), st2, t2) ->
  py_get result "status" (PStr "unknown") = Ok wf_status ->
  eq_str wf_status "completed" = true ->
  print_output_summary result st2 = (Raise e, st3, t3) ->
  exists prints,
    test_workflow filepath st
    = (Ok false, st3,
       (started filepath workflow_id t1 t2
        ++ prints ++ t3
        ++ [Print (error_line ("Test failed with exception: " ++ exn_text e));
            PrintExc e])%list)
    /\ only_prints prints = true.
Proof.
  intros Hload Hcreate Hexecute Hget Heq Hsummary.
  unfold test_workflow, load_workflow. step_m.
  rewrite Hload. step_m. rewrite Hcreate. step_m. rewrite Hexecute. step_m.
  rewrite Hget. step_m. rewrite Heq.
  destruct result; try discriminate Hget. unfold py_get. step_m.
  rewrite Hsummary. step_m.
  eexists [_; _; _]. split; [same_trace | reflexivity].
Qed.

Lemma test_workflow_anatomy (filepath : string) (st : St) :
  exists verdict st' t,
    test_workflow filepath st = (Ok verdict, st', t)
    /\ lifecycle verdict (requests t)
    /\ (slept t = 0 \/ slept t = 500)%Z
    /\ (exists rest, t = (header filepath ++ rest)%list)
    /\ (verdict = true -> pass_evidence filepath st).
Proof.
  destruct (read_json fs filepath) as [workflow_data | e] eqn:Hload.
  2:{ do 3 eexists. split; [apply test_workflow_load_raises; eassumption |].
      split; [measure; now constructor |].
      split; [measure; now left |].
      split; [eexists; reflexivity | discriminate]. }
  destruct (create_workflow_anatomy workflow_data st)
    as (created & workflow_id & st1 & t1 & Hcreate & Hshape1).
  destruct created.
  2:{ do 3 eexists.
      split; [eapply test_workflow_create_failed; eassumption |].
      destruct Hshape1 as [[_ Hp] | (d & prints & -> & Hp)].
      - split; [measure; now constructor |].
        split; [measure; now left |].
        split; [eexists; reflexivity | discriminate].
      - split; [measure; now constructor |].
        split; [measure; now left |].
        split; [eexists; reflexivity | discriminate]. }
  destruct Hshape1 as [[Hfalse _] | (d & prints1 & Ht1 & Hp1)];
    [discriminate |].
  destruct (execute_workflow_anatomy workflow_id st1)
    as (executed & result & st2 & prints2 & Hexecute & Hp2).
  assert (Hhead : forall rest,
             exists rest',
               (started filepath workflow_id t1
                        (Http (execute_request workflow_id) :: prints2)
                ++ rest)%list
               = (header filepath ++ rest')%list).
  { intros rest. eexists. rewrite started_split. reflexivity. }
  destruct executed.
  2:{ do 3 eexists.
      split; [eapply test_workflow_execute_failed; try eassumption;
              reflexivity |].
      subst t1.
      split; [measure; now constructor |].
      split; [measure; now right |].
      split; [apply Hhead | discriminate]. }
  destruct (py_get result "status" (PStr "unknown")) as [wf_status | e]
    eqn:Hget.
  2:{ do 3 eexists.
      split; [eapply test_workflow_not_a_dict; try eassumption;
              reflexivity |].
      subst t1.
      split; [measure; now constructor |].
      split; [measure; now right |].
      split; [apply Hhead | discriminate]. }
  destruct (eq_str wf_status "completed") eqn:Heq.
  2:{ do 3 eexists.
      split; [eapply test_workflow_other_status; try eassumption;
              reflexivity |].
      subst t1.
      split; [measure; now constructor |].
      split; [measure; now right |].
      split; [apply Hhead | discriminate]. }
  destruct (print_output_summary_only_prints result st2)
    as (r & t3 & Hsummary & Hp3).
  destruct r as [[] | e].
  - destruct (test_workflow_passes filepath workflow_data workflow_id result
                wf_status st st1 st2 st2 t1 _ t3
                Hload Hcreate Hexecute Hget Heq Hsummary) as [t [Ht Hq]].
    do 3 eexists. split; [exact Ht |].
    subst t1.
    split; [measure; now constructor |].
    split; [measure; now right |].
    split; [apply Hhead |].
    intros _. destruct result as [| | | | | | items]; try discriminate Hget.
    destruct wf_status; try discriminate Heq.
    apply String.eqb_eq in Heq. subst s.
    inversion Hget as [Hstatus].
    exists workflow_data, workflow_id, st1,
           (Http (create_request d) :: prints1), st2,
           (Http (execute_request workflow_id) :: prints2), items.
    repeat split; assumption.
  - destruct (test_workflow_leaks filepath workflow_data workflow_id result
                wf_status e st st1 st2 st2 t1 _ t3
                Hload Hcreate Hexecute Hget Heq Hsummary) as [t [Ht Hq]].
    do 3 eexists. split; [exact Ht |].
    subst t1.
    split; [measure; now constructor |].
    split; [measure; now right |].
    split; [apply Hhead | discriminate].
Qed.


(** A case passes only if its workflow completed and was cleaned up: the
    fixture loaded, the create call returned a handle, the execute call
    returned an object with status ["completed"], and the requests of the
    case are exactly create, execute and delete. No assumption on the
    result's other fields is needed for this direction. *)
Theorem passed_case_completed_and_cleaned
        (filepath : string) (st st' : St) (t : Trace) :
  test_workflow filepath st = (Ok true, st', t) ->
  pass_evidence filepath st
  /\ exists d workflow_id,
      requests t = [create_request d; execute_request workflow_id;
                    delete_request workflow_id].
Proof.
  intros Htest.
  destruct (test_workflow_anatomy filepath st)
    as (verdict & st1 & t1 & Htest' & Hlife & _ & _ & Hpass).
  rewrite Htest in Htest'. inversion Htest'; subst verdict st1 t1.
  split; [apply Hpass; reflexivity |].
  inversion Hlife; try discriminate. eauto.
Qed.



(** *** The loop and the run *)





Lemma print_summary_only_prints (c : Counters) (st : St) :
  only_prints (snd (print_summary c st)) = true.
Proof.
  unfold print_summary. step_m.
  destruct (0 <? failed c)%nat; reflexivity.
Qed.

(** The three ways a run can go. *)
Lemma run_anatomy (st : St) :
  (health_failure (fst (service health_request st))
   /\ fst (run st) = 1%Z
   /\ requests (snd (run st)) = [health_request])
  \/ (exists resp st1,
         service health_request st = (Ok resp, st1)
         /\ status resp = 200%Z
         /\ ((workflow_files = []
              /\ fst (run st) = 1%Z
              /\ requests (snd (run st)) = [health_request])
             \/ (workflow_files <> []
                 /\ exists c st2 t,
                     test_loop workflow_files (mkCounters 0 0 0) st1
                     = (Ok c, st2, t)
                     /\ fst (run st)
                        = (if (failed c =? 0)%nat then 0%Z else 1%Z)
                     /\ requests (snd (run st))
                        = health_request :: requests t))).
Proof.
  destruct (service health_request st) as [[resp | e] st1] eqn:Hanswer.
  - destruct (Z.eq_dec (status resp) 200) as [H200 | Hne].
    + right. exists resp, st1. split; [reflexivity |]. split; [exact H200 |].
      destruct (main_healthy st st1 resp Hanswer H200) as (pre & Hpre & Hmain).
      unfold run. rewrite Hmain.
      destruct workflow_files as [| f files] eqn:Hfiles.
      * left. split; [reflexivity |]. split; [reflexivity |].
        cbn [snd]. rewrite requests_app, Hpre. reflexivity.
      * right. split; [discriminate |].
        destruct (test_loop_returns (f :: files) (mkCounters 0 0 0) st1)
          as (c & st2 & t & Hloop & _).
        rewrite Hloop. exists c, st2, t.
        split; [reflexivity |]. split; [reflexivity |].
        cbn [snd]. rewrite !requests_app, Hpre.
        destruct (only_prints_quiet _ (print_summary_only_prints c st2))
          as [Hq _].
        rewrite Hq, app_nil_r. reflexivity.
    + left.
      assert (Hfail : health_failure (fst (service health_request st))).
      { rewrite Hanswer. exact Hne. }
      split; [exact Hne |].
      destruct (check_daemon_fails st Hfail) as (r & t & Hcheck & Hr & Hreq).
      unfold run, main. step_m. rewrite Hcheck.
      destruct r as [[] | e]; [contradiction | |]; step_m; cbn [fst snd];
        (split; [reflexivity |]);
        cbn [requests]; rewrite ?app_nil_r, ?requests_app;
        cbn [requests]; rewrite ?app_nil_r; exact Hreq.
  - left.
    assert (Hfail : health_failure (fst (service health_request st))).
    { rewrite Hanswer. exact I. }
    split; [exact I |].
    destruct (check_daemon_fails st Hfail) as (r & t & Hcheck & Hr & Hreq).
    unfold run, main. step_m. rewrite Hcheck.
    destruct r as [[] | e']; [contradiction | |]; step_m; cbn [fst snd];
      (split; [reflexivity |]);
      cbn [requests]; rewrite ?app_nil_r, ?requests_app;
      cbn [requests]; rewrite ?app_nil_r; exact Hreq.
Qed.


(** The exit status is 0 or 1, whatever the service and the fixtures do,
    and it is 0 exactly when the probe was answered with status 200, there
    is at least one fixture and every fixture passed. *)
Theorem exit_zero_iff_all_passed (st : St) :
  (fst (run st) = 0%Z \/ fst (run st) = 1%Z)
  /\ (fst (run st) = 0%Z
      <-> exists resp st1 c st2 t,
           service health_request st = (Ok resp, st1)
           /\ status resp = 200%Z
           /\ workflow_files <> []
           /\ test_loop workflow_files (mkCounters 0 0 0) st1 = (Ok c, st2, t)
           /\ passed c = List.length workflow_files).
Proof.
  destruct (run_anatomy st)
    as [(Hfail & Hexit & _)
       | (resp & st1 & Hanswer & H200 &
          [(Hnone & Hexit & _) | (Hsome & c & st2 & t & Hloop & Hexit & _)])].
  - split; [right; exact Hexit |]. rewrite Hexit.
    split; [discriminate |].
    intros (resp & st1 & c & st2 & t & Hanswer & H200 & _).
    rewrite Hanswer in Hfail. contradiction.
  - split; [right; exact Hexit |]. rewrite Hexit.
    split; [discriminate |].
    intros (_ & _ & _ & _ & _ & _ & _ & Hsome & _). contradiction.
  - destruct (test_loop_returns workflow_files (mkCounters 0 0 0) st1)
      as (c' & st2' & t' & Hloop' & _ & Hsum).
    rewrite Hloop in Hloop'. inversion Hloop'; subst c' st2' t'.
    cbn [passed failed] in Hsum.
    rewrite Hexit. destruct (Nat.eqb_spec (failed c) 0) as [Hz | Hnz].
    + split; [now left |]. split; [intros _ | reflexivity].
      exists resp, st1, c, st2, t. repeat split; try assumption. lia.
    + split; [now right |]. split; [discriminate |].
      intros (resp' & st1' & c' & st2' & t' & Hanswer' & _ & _ & Hagain & Hall).
      rewrite Hanswer in Hanswer'. inversion Hanswer'; subst resp' st1'.
      rewrite Hloop in Hagain. inversion Hagain; subst c' st2' t'.
      lia.
Qed.

(** The loop composes: running it over two lists of fixtures in a row is
    running it over the first and then, from the counters and the service
    state reached, over the second. Counters and service state are the only
    things one case hands to the next. *)
Theorem test_loop_composes
        (files1 files2 : list string) (c : Counters) (st : St) :
  exists c1 st1 t1 c2 st2 t2,
    test_loop files1 c st = (Ok c1, st1, t1)
    /\ test_loop files2 c1 st1 = (Ok c2, st2, t2)
    /\ test_loop (files1 ++ files2) c st = (Ok c2, st2, (t1 ++ t2)%list).
Proof.
  destruct (test_loop_returns files1 c st) as (c1 & st1 & t1 & H1 & _).
  destruct (test_loop_returns files2 c1 st1) as (c2 & st2 & t2 & H2 & _).
  exists c1, st1, t1, c2, st2, t2.
  split; [exact H1 |]. split; [exact H2 |].
  eapply test_loop_app; eassumption.
Qed.

(** *** The order of the fixtures *)

Lemma insert_sorted_perm (x : string) (l : list string) :
  Permutation (insert_sorted x l) (x :: l).
Proof.
  induction l as [| y l IH]; cbn [insert_sorted]; [reflexivity |].
  destruct (String.leb x y); [reflexivity |].
  rewrite IH. apply perm_swap.
Qed.

Lemma insert_sorted_sorted (x : string) (l : list string) :
  Sorted (fun a b => String.leb a b = true) l ->
  Sorted (fun a b => String.leb a b = true) (insert_sorted x l).
Proof.
  induction l as [| y l IH]; intros Hsorted; cbn [insert_sorted].
  - repeat constructor.
  - destruct (String.leb x y) eqn:Hle.
    + constructor; [exact Hsorted | constructor; exact Hle].
    + inversion Hsorted as [| y' l' Htail Hhead]; subst.
      constructor; [apply IH; exact Htail |].
      assert (Hyx : String.leb y x = true).
      { destruct (String.leb_total x y) as [H | H];
          [rewrite H in Hle; discriminate | exact H]. }
      destruct l as [| z l]; cbn [insert_sorted].
      * constructor. exact Hyx.
      * destruct (String.leb x z); constructor; [exact Hyx |].
        inversion Hhead; assumption.
Qed.

(** The fixtures are tested in ascending order of name: the list the loop
    runs over holds exactly the entries of the directory that match
    [*.json], each as often as the directory lists it, and each name is
    at most the next one. *)
Theorem fixtures_in_name_order :
  Permutation workflow_files (filter glob_json (listdir fs))
  /\ Sorted (fun a b => String.leb a b = true) workflow_files
  /\ (forall f, In f workflow_files
                <-> In f (listdir fs) /\ glob_json f = true).
Proof.
  unfold workflow_files.
  assert (Hperm : forall l, Permutation (sorted l) l).
  { induction l as [| x l IH]; cbn [sorted]; [reflexivity |].
    rewrite insert_sorted_perm, IH. reflexivity. }
  split; [apply Hperm |]. split.
  - induction (filter glob_json (listdir fs)) as [| x l IH]; cbn [sorted].
    + constructor.
    + apply insert_sorted_sorted. exact IH.
  - intros f. rewrite <- filter_In. split; intros H.
    + eapply Permutation_in; [apply Hperm | exact H].
    + eapply Permutation_in; [symmetry; apply Hperm | exact H].
Qed.

(** *** The output summary *)






End Harness.

(** ** Two services that differ in their answers to delete requests *)

Arguments test_workflow {St} service fs rt filepath st.
Arguments test_loop {St} service fs rt workflow_files c st.
Arguments execute_workflow {St} service rt workflow_id st.
Arguments run {St} service fs rt st.
Arguments create_workflow {St} service rt workflow_data st.
Arguments delete_workflow {St} service rt workflow_id st.
Arguments check_daemon {St} service st.
Arguments main {St} service fs rt st.
Arguments print_output_summary {St} rt result st.
Arguments print_summary {St} rt c st.

Ltac step_io :=
  cbv beta iota zeta delta
    [bind ret raise try_except emit lift print_status print_success
     print_error print_warning print sleep_ms urlopen is_exception
     fst snd negb];
  cbn [List.app].

Section DeleteAnswer.

Variable St : Type.
Variables service1 service2 : Request -> St -> res Response * St.
Variable fs : FileSystem.
Variable rt : Runtime.

(** The two services agree on every request that is not a delete request,
    and a delete request leaves both in the same state. *)
Hypothesis same_elsewhere :
  forall req st, req_method req <> DELETE -> service1 req st = service2 req st.
Hypothesis same_state :
  forall req st,
    req_method req = DELETE -> snd (service1 req st) = snd (service2 req st).

Lemma create_workflow_same (workflow_data : pyval) (st : St) :
  create_workflow service1 rt workflow_data st
  = create_workflow service2 rt workflow_data st.
Proof.
  unfold create_workflow, build_create_data.
  destruct workflow_data; try reflexivity.
  unfold py_get at 1 2 3 4 5 6 7 8. step_io.
  match goal with |- context [service1 ?r st] =>
    rewrite (same_elsewhere r st) by discriminate
  end.
  reflexivity.
Qed.

Lemma execute_workflow_same (workflow_id : pyval) (st : St) :
  execute_workflow service1 rt workflow_id st
  = execute_workflow service2 rt workflow_id st.
Proof.
  unfold execute_workflow. step_io.
  rewrite (same_elsewhere (execute_request rt workflow_id) st) by discriminate.
  reflexivity.
Qed.

Lemma delete_workflow_same (workflow_id : pyval) (st : St) :
  delete_workflow service1 rt workflow_id st
  = delete_workflow service2 rt workflow_id st.
Proof.
  rewrite !delete_workflow_spec.
  rewrite (same_state (delete_request rt workflow_id) st) by reflexivity.
  reflexivity.
Qed.

Lemma test_workflow_same (filepath : string) (st : St) :
  test_workflow service1 fs rt filepath st
  = test_workflow service2 fs rt filepath st.
Proof.
  unfold test_workflow, load_workflow. step_io.
  destruct (read_json fs filepath) as [workflow_data | e]; step_io;
    [| reflexivity].
  rewrite create_workflow_same.
  destruct (create_workflow service2 rt workflow_data st)
    as [[[[ok workflow_id] | e] st1] t1]; step_io; [| reflexivity].
  destruct ok; step_io; [| reflexivity].
  rewrite execute_workflow_same.
  destruct (execute_workflow service2 rt workflow_id st1)
    as [[[[executed result] | e] st2] t2]; step_io; [| reflexivity].
  destruct executed; step_io.
  2:{ rewrite delete_workflow_same. reflexivity. }
  destruct (py_get result "status" (PStr "unknown")) as [wf_status | e];
    step_io; [| reflexivity].
  destruct (eq_str wf_status "completed"); step_io.
  2:{ rewrite delete_workflow_same. reflexivity. }
  destruct (py_get result "steps_executed" (PInt 0)); step_io;
    [| reflexivity].
  destruct (py_get result "execution_time_ms" (PInt 0)); step_io;
    [| reflexivity].
  destruct (print_output_summary rt result st2) as [[[[] | e] st3] t3];
    step_io; [| reflexivity].
  rewrite delete_workflow_same. reflexivity.
Qed.

Lemma test_loop_same (files : list string) (c : Counters) (st : St) :
  test_loop service1 fs rt files c st = test_loop service2 fs rt files c st.
Proof.
  revert c st. induction files as [| f files IH]; intros c st;
    [reflexivity |].
  cbn [test_loop]. step_io. rewrite test_workflow_same.
  destruct (test_workflow service2 fs rt f st) as [[[verdict | e] st1] t1];
    step_io; [| reflexivity].
  rewrite IH. reflexivity.
Qed.

(** The answer to a delete request cannot be observed in a run: with two
    services that agree on every other request, and that a delete request
    leaves in the same state, every case has the same verdict, the same
    trace and the same final service state, and the run has the same exit
    status and prints the same lines. *)
Theorem delete_answer_is_unobservable :
  (forall filepath st,
      test_workflow service1 fs rt filepath st
      = test_workflow service2 fs rt filepath st)
  /\ (forall st, run service1 fs rt st = run service2 fs rt st).
Proof.
  split; [apply test_workflow_same |].
  intros st. unfold run, main, check_daemon. step_io.
  rewrite (same_elsewhere health_request st) by discriminate.
  destruct (service2 health_request st) as [[resp | e] st1]; step_io.
  - destruct (status resp =? 200)%Z; step_io; [| reflexivity].
    destruct (sample_data_exists fs); step_io;
      (destruct (workflow_files fs) as [| f files]; step_io;
       [reflexivity |]);
      rewrite test_loop_same; reflexivity.
  - destruct (is_url_error e); reflexivity.
Qed.

End DeleteAnswer.

(** ** Worked scenarios *)


(** C2 fails on the same case: the create call succeeded, the output
    summary raises, and the case ends after two requests, neither of them
    the delete request that the three returning paths send. *)
Lemma no_delete_after_exception :
  let service := Sample.service (Sample.executing Sample.completed_with_list) in
  let outcome :=
    test_workflow service Sample.one_fixture Sample.runtime "demo.json" 0 in
  fst (create_workflow service Sample.runtime Sample.demo 0)
  = (Ok (true, PStr "w-123"), 1)
  /\ fst outcome = (Ok false, 2)
  /\ requests (snd outcome)
     = [create_request
          (PDict [("name", PStr "demo"); ("description", PStr "");
                  ("nodes", PList [PDict [("id", PStr "n1")]]);
                  ("connections", PList [])]);
        execute_request Sample.runtime (PStr "w-123")]
  /\ ~ In (delete_request Sample.runtime (PStr "w-123"))
          (requests (snd outcome)).
Proof.
  vm_compute. repeat split.
  intros [H | [H | []]]; discriminate H.
Qed.


Lemma missing_status_is_unknown_witness :
  exists st' t,
    test_workflow
      (Sample.service (Sample.executing (PDict [("steps_executed", PInt 1)])))
      Sample.one_fixture Sample.runtime "demo.json" 0
    = (Ok false, st', t)
    /\ In (Print (error_line "Workflow completed with status: unknown")) t.
Proof.
  eapply (missing_status_is_unknown nat
            (Sample.service
               (Sample.executing (PDict [("steps_executed", PInt 1)])))
            Sample.one_fixture Sample.runtime "demo.json"
            Sample.demo (PStr "w-123") [("steps_executed", PInt 1)] 0 1 2).
  - reflexivity.
  - reflexivity.
  - reflexivity.
  - reflexivity.
Defined.

(** The third scenario of the specification: create answers 500. *)
Lemma create_failure_ends_case_witness :
  exists st' t,
    test_workflow (Sample.service Sample.rejecting) Sample.one_fixture
                  Sample.runtime "demo.json" 0
    = (Ok false, st', t)
    /\ requests t
       = [create_request
            (create_data_of
               [("name", PStr "demo");
                ("nodes", PList [PDict [("id", PStr "n1")]]);
                ("connections", PList [])])]
    /\ (forall workflow_id,
           ~ In (execute_request Sample.runtime workflow_id) (requests t)
           /\ ~ In (delete_request Sample.runtime workflow_id) (requests t))
    /\ In (Print (error_line ("Failed to create workflow: "
                                ++ stem "demo.json"))) t.
Proof.
  apply (create_failure_ends_case nat (Sample.service Sample.rejecting)
           Sample.one_fixture Sample.runtime "demo.json"
           [("name", PStr "demo");
            ("nodes", PList [PDict [("id", PStr "n1")]]);
            ("connections", PList [])] 0).
  - reflexivity.
  - simpl. apply create_raises.
Defined.

Lemma missing_fields_default_witness :
  exists name description nodes connections verdict st' t later,
    test_workflow (Sample.service Sample.healthy) Sample.one_fixture
                  Sample.runtime "demo.json" 0
    = (Ok verdict, st', t)
    /\ requests t
       = create_request (PDict [("name", name); ("description", description);
                                ("nodes", nodes);
                                ("connections", connections)])
         :: later
    /\ (lookup "name" [("name", PStr "demo");
                       ("nodes", PList [PDict [("id", PStr "n1")]]);
                       ("connections", PList [])] = None ->
        name = PStr "Test Workflow")
    /\ (lookup "description" [("name", PStr "demo");
                              ("nodes", PList [PDict [("id", PStr "n1")]]);
                              ("connections", PList [])] = None ->
        description = PStr "")
    /\ (lookup "nodes" [("name", PStr "demo");
                        ("nodes", PList [PDict [("id", PStr "n1")]]);
                        ("connections", PList [])] = None ->
        nodes = PList [])
    /\ (lookup "connections" [("name", PStr "demo");
                              ("nodes", PList [PDict [("id", PStr "n1")]]);
                              ("connections", PList [])] = None ->
        connections = PList []).
Proof.
  apply (missing_fields_default nat (Sample.service Sample.healthy)
           Sample.one_fixture Sample.runtime "demo.json"
           [("name", PStr "demo");
            ("nodes", PList [PDict [("id", PStr "n1")]]);
            ("connections", PList [])] 0).
  reflexivity.
Defined.

Lemma malformed_fixture_fails_alone_witness :
  exists c1 st1 t1 c2 st2 t2,
    test_loop (Sample.service Sample.healthy) Sample.three_fixtures
              Sample.runtime ["a.json"] (mkCounters 0 0 0) 0
    = (Ok c1, st1, t1)
    /\ test_loop (Sample.service Sample.healthy) Sample.three_fixtures
                 Sample.runtime ["c.json"]
                 (mkCounters (total c1 + 1) (passed c1) (failed c1 + 1)) st1
       = (Ok c2, st2, t2)
    /\ test_loop (Sample.service Sample.healthy) Sample.three_fixtures
                 Sample.runtime (["a.json"] ++ "broken.json" :: ["c.json"])
                 (mkCounters 0 0 0) 0
       = (Ok c2, st2,
          (t1
           ++ header "broken.json"
           ++ [Print (error_line ("Test failed with exception: "
                                    ++ exn_text Sample.syntax_error));
               PrintExc Sample.syntax_error; Sleep 1000]
           ++ t2)%list)
    /\ total c2 = 0 + List.length (["a.json"] ++ "broken.json" :: ["c.json"]).
Proof.
  apply (malformed_fixture_fails_alone nat (Sample.service Sample.healthy)
           Sample.three_fixtures Sample.runtime
           ["a.json"] ["c.json"] "broken.json" Sample.syntax_error
           (mkCounters 0 0 0) 0).
  reflexivity.
Defined.

Lemma health_failure_aborts_witness :
  exists t,
    run (Sample.service Sample.down) Sample.one_fixture Sample.runtime 0
    = (1%Z, t)
    /\ requests t = [health_request].
Proof.
  apply (health_failure_aborts nat (Sample.service Sample.down)
           Sample.one_fixture Sample.runtime 0).
  simpl. exact I.
Defined.

Lemma no_fixtures_aborts_witness :
  exists pre,
    run (Sample.service Sample.healthy) Sample.no_fixtures Sample.runtime 0
    = (1%Z,
       (pre ++ [Print (error_line
                         "No workflow files found in examples/workflows")])%list)
    /\ requests pre = [health_request].
Proof.
  apply (no_fixtures_aborts nat (Sample.service Sample.healthy)
           Sample.no_fixtures Sample.runtime 0 1
           (mkResponse 200 (Ok (PList [])))).
  - reflexivity.
  - reflexivity.
  - reflexivity.
Defined.

Lemma exit_status_reflects_failures_witness :
  exists c st2 t,
    test_loop (Sample.service Sample.healthy) Sample.three_fixtures
              Sample.runtime (workflow_files Sample.three_fixtures)
              (mkCounters 0 0 0) 1
    = (Ok c, st2, t)
    /\ (fst (run (Sample.service Sample.healthy) Sample.three_fixtures
                 Sample.runtime 0) = 0%Z
        <-> failed c = 0)
    /\ (failed c <> 0 ->
        fst (run (Sample.service Sample.healthy) Sample.three_fixtures
                 Sample.runtime 0) = 1%Z).
Proof.
  apply (exit_status_reflects_failures nat (Sample.service Sample.healthy)
           Sample.three_fixtures Sample.runtime 0 1
           (mkResponse 200 (Ok (PList [])))).
  - reflexivity.
  - reflexivity.
  - vm_compute. discriminate.
Defined.

(** The first scenario end to end: one fixture, four requests in order,
    counters 1 / 1 / 0 and exit status 0. *)
Example scenario_completed :
  let service := Sample.service Sample.healthy in
  let outcome := run service Sample.one_fixture Sample.runtime 0 in
  fst outcome = 0%Z
  /\ map req_method (requests (snd outcome)) = [GET; POST; POST; DELETE]
  /\ fst (fst (test_loop service Sample.one_fixture Sample.runtime
                         ["demo.json"] (mkCounters 0 0 0) 1))
     = Ok (mkCounters 1 1 0).
Proof. vm_compute. repeat split. Qed.

(** The second scenario: the execute call reports status ["failed"]. *)
Example scenario_failed :
  let service :=
    Sample.service (Sample.executing (PDict [("status", PStr "failed")])) in
  let outcome := run service Sample.one_fixture Sample.runtime 0 in
  fst outcome = 1%Z
  /\ In (Print (error_line "Workflow completed with status: failed"))
        (snd outcome)
  /\ map req_method (requests (snd outcome)) = [GET; POST; POST; DELETE].
Proof.
  vm_compute. repeat split.
  repeat (first [left; reflexivity | right]).
Qed.

(** *** Instances of the further properties *)

Lemma non_object_fixture_sends_nothing_witness :
  exists t,
    test_workflow (Sample.service Sample.healthy) Sample.array_fixture
                  Sample.runtime "list.json" 0
    = (Ok false, 0, t)
    /\ requests t = []
    /\ In (Print (error_line
                    ("Exception creating workflow: '"
                       ++ type_name (PList [])
                       ++ "' object has no attribute 'get'")))
          t.
Proof.
  apply (non_object_fixture_sends_nothing nat (Sample.service Sample.healthy)
           Sample.array_fixture Sample.runtime "list.json" (PList []) 0).
  - reflexivity.
  - intros fields. discriminate.
Defined.

Lemma passed_case_completed_and_cleaned_witness :
  let outcome :=
    test_workflow (Sample.service Sample.healthy) Sample.one_fixture
                  Sample.runtime "demo.json" 0 in
  pass_evidence nat (Sample.service Sample.healthy) Sample.one_fixture
                Sample.runtime "demo.json" 0
  /\ exists d workflow_id,
      requests (snd outcome)
      = [create_request d; execute_request Sample.runtime workflow_id;
         delete_request Sample.runtime workflow_id].
Proof.
  apply (passed_case_completed_and_cleaned nat
           (Sample.service Sample.healthy) Sample.one_fixture Sample.runtime
           "demo.json" 0 3).
  reflexivity.
Defined.



Lemma delete_answer_is_unobservable_witness :
  (forall filepath st,
      test_workflow (Sample.service Sample.healthy) Sample.one_fixture
                    Sample.runtime filepath st
      = test_workflow (Sample.service Sample.keeping) Sample.one_fixture
                      Sample.runtime filepath st)
  /\ (forall st,
         run (Sample.service Sample.healthy) Sample.one_fixture
             Sample.runtime st
         = run (Sample.service Sample.keeping) Sample.one_fixture
               Sample.runtime st).
Proof.
  apply (delete_answer_is_unobservable nat
           (Sample.service Sample.healthy) (Sample.service Sample.keeping)
           Sample.one_fixture Sample.runtime).
  - intros req st Hmethod. unfold Sample.service.
    destruct (req_method req), (req_data req);
      first [reflexivity | contradiction].
  - intros req st Hmethod. reflexivity.
Defined.

(** A run against the daemon that refuses to delete: same exit status and
    the same four requests as against the one that deletes. *)
Example scenario_delete_refused :
  let outcome :=
    run (Sample.service Sample.keeping) Sample.one_fixture Sample.runtime 0 in
  fst outcome = 0%Z
  /\ map req_method (requests (snd outcome)) = [GET; POST; POST; DELETE].
Proof. vm_compute. repeat split. Qed.

